(** * JsonLogster: flattening of JSON log lines into metrics

    A shallow embedding of [logster/parsers/JsonLogster.py] (Python 2) and
    the properties of its three methods [flatten_object], [parse_line] and
    [get_state].

    Conventions of the embedding:
    - a Python [dict] used as a map is a [gmap]; a decoded JSON object keeps
      the order in which [iteritems()] yields its pairs, as an association
      list;
    - Python 2 has two text types: [unicode] (what [json.loads] returns for
      every JSON string and object key) and the byte string [str] (the
      option value [key_separator], the result of [str(...)]); a [text] is
      a [string] tagged with its type, a character below 128 being ASCII;
    - [int] and [long] are both [Z];
    - a raised exception is the [Raise] outcome of a [result]. *)

From Stdlib Require Import ZArith String Ascii List DecimalString Floats.SpecFloat.
From stdpp Require Import base option list strings gmap fin_maps.

#[local] Set Warnings "-register-all".

Local Open Scope string_scope.
Local Open Scope Z_scope.

(** ** Exceptions and outcomes *)

Inductive exn : Type :=
| AttributeError
| TypeError
| ValueError (msg : string)
| UnicodeEncodeError
| UnicodeDecodeError
| LogsterParsingException (msg : string)
| UserException (name : string).

Inductive result (A : Type) : Type :=
| Ok (a : A)
| Raise (e : exn).

Arguments Ok {A} a.
Arguments Raise {A} e.

#[global] Instance result_ret : MRet result := fun A a => Ok a.

#[global] Instance result_bind : MBind result := fun A B k r =>
  match r with
  | Ok a => k a
  | Raise e => Raise e
  end.

(** ** Python values *)

(** Python 2 text: a byte string ([str]) or a [unicode] string. *)
Inductive text : Type :=
| Bytes (s : string)
| Unicode (s : string).

(** The values without an [__iter__] attribute: what a leaf of a decoded
    document, a key, or the return value of a key filter can be (a filter
    that returns a container meets the [AttributeError] of [replace], as
    one that returns [None] does). *)
Inductive pyval : Type :=
| PyNone
| PyBool (b : bool)
| PyInt (n : Z)
| PyFloat (x : spec_float)
| PyText (t : text).

Abbreviation PyStr s := (PyText (Bytes s)).
Abbreviation PyUnicode s := (PyText (Unicode s)).

(** A decoded document: an atom, a [list], or a [dict] with text keys, its
    pairs in [iteritems()] order. *)
Inductive json : Type :=
| JAtom (v : pyval)
| JList (l : list json)
| JDict (kvs : list (string * json)).

(** ** Text operations *)

Definition is_ascii (c : ascii) : bool := (N_of_ascii c <? 128)%N.

Fixpoint ascii_only (s : string) : bool :=
  match s with
  | EmptyString => true
  | String c rest => is_ascii c && ascii_only rest
  end.

(** [s.replace(old, new)] for a one-character [old]. *)
Fixpoint replace_char (old : ascii) (new : string) (s : string) : string :=
  match s with
  | EmptyString => EmptyString
  | String c rest =>
      if Ascii.eqb c old then new ++ replace_char old new rest
      else String c (replace_char old new rest)
  end.

Definition slash : ascii := "/"%char.

(** [key.replace('/', sep)], [sep] a byte string.  Only text has the
    method; a [unicode] receiver first decodes its byte-string arguments
    as ASCII. *)
Definition py_replace_slash (key : pyval) (sep : string) : result text :=
  match key with
  | PyText (Bytes s) => Ok (Bytes (replace_char slash sep s))
  | PyText (Unicode s) =>
      if ascii_only sep then Ok (Unicode (replace_char slash sep s))
      else Raise UnicodeDecodeError
  | _ => Raise AttributeError
  end.

(** [str(t)] of a text: a [unicode] is encoded as ASCII. *)
Definition py_str (t : text) : result string :=
  match t with
  | Bytes s => Ok s
  | Unicode s => if ascii_only s then Ok s else Raise UnicodeEncodeError
  end.

(** [key is False] *)
Definition is_False (v : pyval) : bool :=
  match v with
  | PyBool false => true
  | _ => false
  end.

(** ** The parser object *)

Definition key_filter_t : Type := pyval -> result pyval.

(** The instance state: [self.metrics], [self.key_separator], the
    overridable method [key_filter], and [self.duration], which exists
    once [get_state] has run. *)
Record JsonLogster : Type := mkJsonLogster {
  metrics : gmap string pyval;
  key_separator : string;
  key_filter : key_filter_t;
  duration : option pyval
}.

(** The default [key_filter] method: the identity. *)
Definition default_key_filter : key_filter_t := fun key => Ok key.

(** [__init__] with the separator that the option parser yields ('.' when
    the option is absent). *)
Definition init (sep : string) : JsonLogster :=
  {| metrics := ∅; key_separator := sep;
     key_filter := default_key_filter; duration := None |}.

(** ** flatten_object *)

(** [d.update(m)]: every pair of [m] is stored into [d], one by one. *)
Definition dict_update (d m : gmap string pyval) : gmap string pyval :=
  map_fold (fun k v acc => <[k := v]> acc) d m.

(** [enumerate(l)], counting from [i]. *)
Fixpoint enumerate_from {A : Type} (i : Z) (l : list A) : list (pyval * A) :=
  match l with
  | [] => []
  | x :: rest => (PyInt i, x) :: enumerate_from (i + 1) rest
  end.

(** The characters of a text, as iterating over it yields them. *)
Fixpoint chars_of (mk : string -> text) (s : string) : list json :=
  match s with
  | EmptyString => []
  | String c rest => JAtom (PyText (mk (String c EmptyString))) :: chars_of mk rest
  end.

(** Lines 70-77: the key after the callback and the '/' substitution;
    [None] when the loop continues with the next pair. *)
Definition visit_key (self : JsonLogster) (key_filter_callback : option key_filter_t)
    (key : pyval) : result (option text) :=
  key ← match key_filter_callback with
         | Some f => f key
         | None => Ok key
         end;
  if is_False key then Ok None
  else key ← py_replace_slash key (key_separator self); Ok (Some key).

(** Lines 66-84: one turn of the loop on the pair [(key, child)];
    [recurse] is the recursive call on [child]. *)
Definition flatten_item (self : JsonLogster) (separator : string)
    (key_filter_callback : option key_filter_t) (parent_keys : list string)
    (recurse : list string -> result (gmap string pyval))
    (key : pyval) (child : json) (flattened : gmap string pyval)
    : result (gmap string pyval) :=
  key ← visit_key self key_filter_callback key;
  match key with
  | None => Ok flattened
  | Some key =>
      match child with
      | JList _ | JDict _ =>
          seg ← py_str key;
          sub ← recurse (parent_keys ++ [seg])%list;
          Ok (dict_update flattened sub)
      | JAtom v =>
          seg ← py_str key;
          let final_key := String.concat separator (parent_keys ++ [seg])%list in
          Ok (<[final_key := v]> flattened)
      end
  end.

(** The [for] loop of lines 66-84 over the pairs [items], [step] being one
    turn of it. *)
Fixpoint flatten_loop
    (step : pyval -> json -> gmap string pyval -> result (gmap string pyval))
    (items : list (pyval * json)) (flattened : gmap string pyval)
    : result (gmap string pyval) :=
  match items with
  | [] => Ok flattened
  | (key, child) :: rest =>
      flattened ← step key child flattened;
      flatten_loop step rest flattened
  end.

(** [flatten_object]: a [dict] is iterated with [iteritems()], anything
    else with [enumerate] (lines 61-64), which yields the elements of a
    [list], the characters of a text, and raises [TypeError] on the other
    atoms.  The characters of a text are atoms, so the loop over them never
    makes the recursive call. *)
Fixpoint flatten_object (self : JsonLogster) (node : json) (separator : string)
    (key_filter_callback : option key_filter_t) (parent_keys : list string)
    {struct node} : result (gmap string pyval) :=
  match node with
  | JDict kvs =>
      (fix loop (kvs : list (string * json)) (flattened : gmap string pyval)
         {struct kvs} : result (gmap string pyval) :=
         match kvs with
         | [] => Ok flattened
         | (key, child) :: rest =>
             flattened ← flatten_item self separator key_filter_callback parent_keys
                            (flatten_object self child separator key_filter_callback)
                            (PyUnicode key) child flattened;
             loop rest flattened
         end) kvs ∅
  | JList l =>
      (fix loop (i : Z) (l : list json) (flattened : gmap string pyval)
         {struct l} : result (gmap string pyval) :=
         match l with
         | [] => Ok flattened
         | child :: rest =>
             flattened ← flatten_item self separator key_filter_callback parent_keys
                            (flatten_object self child separator key_filter_callback)
                            (PyInt i) child flattened;
             loop (i + 1) rest flattened
         end) 0 l ∅
  | JAtom (PyText (Bytes s)) =>
      flatten_loop
        (flatten_item self separator key_filter_callback parent_keys
           (fun _ => Raise TypeError))
        (enumerate_from 0 (chars_of Bytes s)) ∅
  | JAtom (PyText (Unicode s)) =>
      flatten_loop
        (flatten_item self separator key_filter_callback parent_keys
           (fun _ => Raise TypeError))
        (enumerate_from 0 (chars_of Unicode s)) ∅
  | JAtom _ => Raise TypeError
  end.

(** The pairs that the loop of [flatten_object] visits (lines 61-64). *)
Definition iter_items (node : json) : result (list (pyval * json)) :=
  match node with
  | JDict kvs => Ok (map (fun kv => (PyUnicode (fst kv), snd kv)) kvs)
  | JList l => Ok (enumerate_from 0 l)
  | JAtom (PyText (Bytes s)) => Ok (enumerate_from 0 (chars_of Bytes s))
  | JAtom (PyText (Unicode s)) => Ok (enumerate_from 0 (chars_of Unicode s))
  | JAtom _ => Raise TypeError
  end.

(** One turn of the loop of [flatten_object], the recursive call being
    [flatten_object] itself. *)
Definition flatten_step (self : JsonLogster) (separator : string)
    (key_filter_callback : option key_filter_t) (parent_keys : list string)
    (key : pyval) (child : json) (flattened : gmap string pyval)
    : result (gmap string pyval) :=
  flatten_item self separator key_filter_callback parent_keys
    (flatten_object self child separator key_filter_callback)
    key child flattened.

(** ** parse_line *)

(** [json.loads] belongs to the Python library, not to this program: a
    decoder is a parameter.  It returns the decoded document, or the
    message of the [ValueError] it raises. *)
Definition decoder : Type := string -> json + string.

(** The line is decoded twice (lines 92 and 97); [self.metrics] is updated
    once the argument of [update] has been evaluated. *)
Definition parse_line (json_loads : decoder) (self : JsonLogster) (line : string)
    : JsonLogster * result unit :=
  match json_loads line with
  | inr msg => (self, Raise (ValueError msg))
  | inl json_data =>
      match json_loads line with
      | inr msg => (self, Raise (ValueError msg))
      | inl node =>
          match flatten_object self node (key_separator self)
                  (Some (key_filter self)) [] with
          | Raise e => (self, Raise e)
          | Ok flattened =>
              ({| metrics := dict_update (metrics self) flattened;
                  key_separator := key_separator self;
                  key_filter := key_filter self;
                  duration := duration self |}, Ok tt)
          end
      end
  end.

(** ** get_state *)

(** Modelled from the spec: the class [MetricObject] of [logster_helper],
    of which the program uses the constructor with a name, a value and a
    type. *)
Module MetricObject.
Record t : Type := mk {
  name : string;
  value : pyval;
  type : string
}.
End MetricObject.

(** Lines 106-118: the record of one item of [self.metrics].  [bool] is a
    subclass of [int]; the last branch receives [None] and text. *)
Definition metric_object (metric_name : string) (metric_value : pyval)
    : result MetricObject.t :=
  match metric_value with
  | PyFloat x => Ok (MetricObject.mk metric_name (PyFloat x) "float")
  | PyInt n => Ok (MetricObject.mk metric_name (PyInt n) "int32")
  | PyBool b => Ok (MetricObject.mk metric_name (PyInt (if b then 1 else 0)) "int32")
  | PyNone => Ok (MetricObject.mk metric_name (PyStr "None") "string")
  | PyText t =>
      s ← py_str t;
      Ok (MetricObject.mk metric_name (PyStr s) "string")
  end.

Fixpoint get_state_loop (items : list (string * pyval))
    (metric_objects : list MetricObject.t) : result (list MetricObject.t) :=
  match items with
  | [] => Ok metric_objects
  | (metric_name, metric_value) :: rest =>
      m ← metric_object metric_name metric_value;
      get_state_loop rest (metric_objects ++ [m])%list
  end.

Definition get_state (self : JsonLogster) (duration : pyval)
    : JsonLogster * result (list MetricObject.t) :=
  let self := {| metrics := metrics self;
                 key_separator := key_separator self;
                 key_filter := key_filter self;
                 duration := Some duration |} in
  (self, get_state_loop (map_to_list (metrics self)) []).

(** ** A decoder to run the examples with

    [loads_fragment] decodes the fragment of JSON made of objects, arrays,
    strings without escapes, integers, [true], [false] and [null]; it
    rejects every other line.  The theorems below hold for every decoder;
    this one only instantiates them on concrete lines. *)

Definition dquote : ascii := ascii_of_nat 34.
Definition dq : string := String dquote EmptyString.
Definition backslash : ascii := ascii_of_nat 92.

Fixpoint skip_ws (s : string) : string :=
  match s with
  | String c rest => if Ascii.eqb c " "%char then skip_ws rest else s
  | EmptyString => s
  end.

(** The text up to the closing quote, and what follows it. *)
Fixpoint scan_string (s : string) : option (string * string) :=
  match s with
  | EmptyString => None
  | String c rest =>
      if Ascii.eqb c dquote then Some (EmptyString, rest)
      else if Ascii.eqb c backslash then None
      else match scan_string rest with
           | Some (body, rest') => Some (String c body, rest')
           | None => None
           end
  end.

Definition digit_of (c : ascii) : option Z :=
  let n := N_of_ascii c in
  if ((48 <=? n) && (n <=? 57))%N then Some (Z.of_N n - 48) else None.

(** The digits at the head of [s], read after the value [acc]. *)
Fixpoint scan_digits (s : string) (acc : Z) : Z * string :=
  match s with
  | String c rest =>
      match digit_of c with
      | Some d => scan_digits rest (10 * acc + d)
      | None => (acc, s)
      end
  | EmptyString => (acc, s)
  end.

Definition scan_int (s : string) : option (Z * string) :=
  match s with
  | String c rest =>
      match digit_of c with
      | Some _ => Some (scan_digits s 0)
      | None => None
      end
  | EmptyString => None
  end.

(** A [dict] holds one value per key: a repeated key keeps its place and
    takes the later value. *)
Fixpoint dict_set (k : string) (v : json) (kvs : list (string * json))
    : list (string * json) :=
  match kvs with
  | [] => [(k, v)]
  | (k', v') :: rest =>
      if String.eqb k k' then (k, v) :: rest else (k', v') :: dict_set k v rest
  end.

Definition strip_prefix (p s : string) : option string :=
  if String.prefix p s
  then Some (String.substring (String.length p) (String.length s - String.length p) s)
  else None.

Fixpoint decode_value (fuel : nat) (s : string) : option (json * string) :=
  match fuel with
  | O => None
  | S fuel =>
      match skip_ws s with
      | EmptyString => None
      | String c rest =>
          if Ascii.eqb c "["%char then
            match skip_ws rest with
            | String "]"%char rest' => Some (JList [], rest')
            | _ => decode_elements fuel rest []
            end
          else if Ascii.eqb c "{"%char then
            match skip_ws rest with
            | String "}"%char rest' => Some (JDict [], rest')
            | _ => decode_members fuel rest []
            end
          else if Ascii.eqb c dquote then
            match scan_string rest with
            | Some (body, rest') => Some (JAtom (PyUnicode body), rest')
            | None => None
            end
          else if Ascii.eqb c "-"%char then
            match scan_int rest with
            | Some (n, rest') => Some (JAtom (PyInt (- n)), rest')
            | None => None
            end
          else
            match scan_int (String c rest) with
            | Some (n, rest') => Some (JAtom (PyInt n), rest')
            | None =>
                match strip_prefix "true" (String c rest) with
                | Some rest' => Some (JAtom (PyBool true), rest')
                | None =>
                    match strip_prefix "false" (String c rest) with
                    | Some rest' => Some (JAtom (PyBool false), rest')
                    | None =>
                        match strip_prefix "null" (String c rest) with
                        | Some rest' => Some (JAtom PyNone, rest')
                        | None => None
                        end
                    end
                end
            end
      end
  end
with decode_elements (fuel : nat) (s : string) (acc : list json)
    : option (json * string) :=
  match fuel with
  | O => None
  | S fuel =>
      match decode_value fuel s with
      | Some (v, rest) =>
          match skip_ws rest with
          | String c rest' =>
              if Ascii.eqb c ","%char then decode_elements fuel rest' (acc ++ [v])%list
              else if Ascii.eqb c "]"%char then Some (JList (acc ++ [v])%list, rest')
              else None
          | EmptyString => None
          end
      | None => None
      end
  end
with decode_members (fuel : nat) (s : string) (acc : list (string * json))
    : option (json * string) :=
  match fuel with
  | O => None
  | S fuel =>
      match skip_ws s with
      | String c rest =>
          if Ascii.eqb c dquote then
            match scan_string rest with
            | Some (k, rest) =>
                match skip_ws rest with
                | String ":"%char rest =>
                    match decode_value fuel rest with
                    | Some (v, rest) =>
                        match skip_ws rest with
                        | String c rest' =>
                            if Ascii.eqb c ","%char
                            then decode_members fuel rest' (dict_set k v acc)
                            else if Ascii.eqb c "}"%char
                            then Some (JDict (dict_set k v acc), rest')
                            else None
                        | EmptyString => None
                        end
                    | None => None
                    end
                | _ => None
                end
            | None => None
            end
          else None
      | EmptyString => None
      end
  end.

(** The message of [json] for a line that starts no document. *)
Definition no_json : string := "No JSON object could be decoded".

(** The whole line must be one document.  Every rejected line is reported
    with [no_json]; the messages of [json] that give a position are not
    reproduced. *)
Definition loads_fragment : decoder := fun line =>
  match decode_value (2 * String.length line + 2) line with
  | Some (node, rest) =>
      match skip_ws rest with
      | EmptyString => inl node
      | _ => inr no_json
      end
  | None => inr no_json
  end.

(** ** Documents and lines of the examples *)

Definition quoted (s : string) : string := dq ++ s ++ dq.

(** [{"a":{"b":1,"c":[2,3]}}] *)
Definition doc_nested : json :=
  JDict [("a", JDict [("b", JAtom (PyInt 1));
                      ("c", JList [JAtom (PyInt 2); JAtom (PyInt 3)])])].

(** [{"x/y": 5}] *)
Definition doc_slash : json := JDict [("x/y", JAtom (PyInt 5))].

(** [{"secret":{"a":1},"ok":2}] *)
Definition doc_secret : json :=
  JDict [("secret", JDict [("a", JAtom (PyInt 1))]); ("ok", JAtom (PyInt 2))].

(** [{"a":{}}] *)
Definition doc_empty : json := JDict [("a", JDict [])].

(** [{"a":1,"b":2}], [{"a":3}], [{"a":1}], [{"a":2}] *)
Definition doc_a1b2 : json := JDict [("a", JAtom (PyInt 1)); ("b", JAtom (PyInt 2))].
Definition doc_a3 : json := JDict [("a", JAtom (PyInt 3))].
Definition doc_a1 : json := JDict [("a", JAtom (PyInt 1))].
Definition doc_a2 : json := JDict [("a", JAtom (PyInt 2))].

Definition line_a1b2 : string := "{" ++ quoted "a" ++ ":1," ++ quoted "b" ++ ":2}".
Definition line_a3 : string := "{" ++ quoted "a" ++ ":3}".
Definition line_a1 : string := "{" ++ quoted "a" ++ ":1}".
Definition line_a2 : string := "{" ++ quoted "a" ++ ":2}".
Definition line_nested : string :=
  "{" ++ quoted "a" ++ ":{" ++ quoted "b" ++ ":1," ++ quoted "c" ++ ":[2,3]}}".
Definition line_malformed : string := "not json".

(** A key filter that skips the key [secret] and keeps the others. *)
Definition skip_secret : key_filter_t := fun key =>
  match key with
  | PyText (Unicode "secret") => Ok (PyBool false)
  | _ => Ok key
  end.

(** Key filters that return a falsy value other than [False]. *)
Definition always_empty : key_filter_t := fun _ => Ok (PyStr "").
Definition always_zero : key_filter_t := fun _ => Ok (PyInt 0).

(** A key filter that raises on the key [b]. *)
Definition raise_on_b : key_filter_t := fun key =>
  match key with
  | PyText (Unicode "b") => Raise (UserException "KeyError")
  | _ => Ok key
  end.

(** The parser with the overridden method [key_filter]. *)
Definition with_key_filter (self : JsonLogster) (f : key_filter_t) : JsonLogster :=
  {| metrics := metrics self; key_separator := key_separator self;
     key_filter := f; duration := duration self |}.

(** The parser holding the accumulated mapping [m]. *)
Definition with_metrics (self : JsonLogster) (m : gmap string pyval) : JsonLogster :=
  {| metrics := m; key_separator := key_separator self;
     key_filter := key_filter self; duration := duration self |}.

(** The parser once [get_state] has stored [duration]. *)
Definition with_duration (self : JsonLogster) (d : pyval) : JsonLogster :=
  {| metrics := metrics self; key_separator := key_separator self;
     key_filter := key_filter self; duration := Some d |}.

(** ** The emitted records, as the specification words them

    A floating-point value keeps its value under the type [float]; a
    boolean becomes [0] or [1] and an integer keeps its value, both under
    the type that the code spells [int32]; anything else becomes its text
    under the type [string]. *)

Definition emitted_type (v : pyval) : string :=
  match v with
  | PyFloat _ => "float"
  | PyBool _ | PyInt _ => "int32"
  | PyNone | PyText _ => "string"
  end.

Definition emitted_value (v : pyval) : pyval :=
  match v with
  | PyFloat x => PyFloat x
  | PyBool b => PyInt (if b then 1 else 0)
  | PyInt n => PyInt n
  | PyNone => PyStr "None"
  | PyText (Bytes s) | PyText (Unicode s) => PyStr s
  end.

Definition emitted_record (kv : string * pyval) : MetricObject.t :=
  MetricObject.mk kv.1 (emitted_value kv.2) (emitted_type kv.2).

(** A value whose text, if it is a [unicode], is ASCII. *)
Definition ascii_value (v : pyval) : bool :=
  match v with
  | PyText (Unicode s) => ascii_only s
  | _ => true
  end.

(** The accumulated mapping of the examples of [get_state]:
    [true], [1.5], ["x"], [123456789012345] and [null]. *)
Definition float_1_5 : spec_float := S754_finite false 3 (-1).

Definition metrics_sample : gmap string pyval :=
  {[ "flag" := PyBool true; "ratio" := PyFloat float_1_5;
     "word" := PyUnicode "x"; "big" := PyInt 123456789012345;
     "nothing" := PyNone ]}.

(** ** Flattening, as the specification words it

    The leaves of a document made of objects, in visiting order, each
    under its flat key: the path segments (the object keys, '/' replaced
    by [key_sep]) joined by [separator].  An empty container has no
    leaf. *)
Fixpoint leaves (key_sep separator : string) (path : list string) (node : json)
    {struct node} : list (string * pyval) :=
  match node with
  | JDict kvs =>
      (fix go (kvs : list (string * json)) : list (string * pyval) :=
         match kvs with
         | [] => []
         | (k, child) :: rest =>
             let seg := replace_char slash key_sep k in
             match child with
             | JAtom v => [(String.concat separator (path ++ [seg])%list, v)]
             | _ => leaves key_sep separator (path ++ [seg])%list child
             end ++ go rest
         end)%list kvs
  | _ => []
  end.

(** The mapping that holds, for each flat key, its last leaf. *)
Definition last_wins (l : list (string * pyval)) : gmap string pyval :=
  list_to_map (rev l).

(** Documents made of objects with ASCII keys, atoms and empty arrays. *)
Fixpoint objects_only (node : json) : bool :=
  match node with
  | JAtom _ => true
  | JList l => match l with [] => true | _ => false end
  | JDict kvs =>
      (fix all (kvs : list (string * json)) : bool :=
         match kvs with
         | [] => true
         | (k, child) :: rest => ascii_only k && objects_only child && all rest
         end) kvs
  end.

(** A key filter that returns every key as it is. *)
Definition keeps_keys (cb : option key_filter_t) : Prop :=
  forall f, cb = Some f -> forall key, f key = Ok key.

(** [{"a":{"b":1,"c":{"d/e":2}},"f":[]}] *)
Definition doc_objects : json :=
  JDict [("a", JDict [("b", JAtom (PyInt 1));
                      ("c", JDict [("d/e", JAtom (PyInt 2))])]);
         ("f", JList [])].

(** A text without '/'. *)
Fixpoint slash_free (s : string) : bool :=
  match s with
  | EmptyString => true
  | String c rest => negb (Ascii.eqb c slash) && slash_free rest
  end.

(** A key filter, as a subclass may define it, that returns the decimal
    text of an integer key and every other key as it is. *)
Definition text_keys : key_filter_t := fun key =>
  match key with
  | PyInt n => Ok (PyStr (NilZero.string_of_int (Z.to_int n)))
  | _ => Ok key
  end.

(** ** __init__ *)

(** [s.split(' ')]: the text is cut at every space; two spaces in a row,
    a leading or a trailing space give an empty piece. *)
Fixpoint split_space (s : string) : list string :=
  match s with
  | EmptyString => [EmptyString]
  | String c rest =>
      if Ascii.eqb c " "%char then EmptyString :: split_space rest
      else match split_space rest with
           | piece :: pieces => String c piece :: pieces
           | [] => [String c EmptyString]
           end
  end.

(** Lines 28-31: the arguments handed to the option parser; [None] and the
    empty text are falsy. *)
Definition init_options (option_string : option string) : list string :=
  match option_string with
  | Some EmptyString | None => []
  | Some s => split_space s
  end.

(** Lines 23-38.  [optparse] belongs to the Python library: [parse_args]
    stands for the parser built at lines 33-35, and returns the value of
    the option [key_separator] or raises what the library raises. *)
Definition __init__ (parse_args : list string -> result string)
    (option_string : option string) : result JsonLogster :=
  let options := init_options option_string in
  sep ← parse_args options;
  Ok {| metrics := ∅; key_separator := sep;
        key_filter := default_key_filter; duration := None |}.

(** ** Measures of a document *)

(** The atoms of a document, in visiting order. *)
Fixpoint atoms_of (node : json) : list pyval :=
  match node with
  | JAtom v => [v]
  | JList l => List.flat_map atoms_of l
  | JDict kvs => List.flat_map (fun kv => atoms_of (snd kv)) kvs
  end.

(** Every object key of the document is ASCII text. *)
Fixpoint ascii_keys (node : json) : bool :=
  match node with
  | JAtom _ => true
  | JList l => forallb ascii_keys l
  | JDict kvs => forallb (fun kv => ascii_only (fst kv) && ascii_keys (snd kv)) kvs
  end.

(** The document holds an array with an element, at any depth. *)
Fixpoint holds_array (node : json) : bool :=
  match node with
  | JAtom _ => false
  | JList l => match l with [] => false | _ => true end
  | JDict kvs => existsb (fun kv => holds_array (snd kv)) kvs
  end.

(** [hasattr(node, '__iter__')] *)
Definition is_container (node : json) : bool :=
  match node with
  | JAtom _ => false
  | JList _ | JDict _ => true
  end.

(** A text without a space. *)
Fixpoint space_free (s : string) : bool :=
  match s with
  | EmptyString => true
  | String c rest => negb (Ascii.eqb c " "%char) && space_free rest
  end.

(** A flattened mapping within the atoms of its document: no more entries
    than atoms, no value that is not one of them. *)
Definition entries_within (self : JsonLogster) (separator : string)
    (cb : option key_filter_t) (node : json) : Prop :=
  forall parent_keys m,
    flatten_object self node separator cb parent_keys = Ok m ->
    (size m <= length (atoms_of node))%nat
    /\ (forall k v, m !! k = Some v -> In v (atoms_of node)).

(** ** Paths of leaves *)

(** A text without the character [c]. *)
Fixpoint char_free (c : ascii) (s : string) : bool :=
  match s with
  | EmptyString => true
  | String c' rest => negb (Ascii.eqb c' c) && char_free c rest
  end.

(** The pieces of a text between the occurrences of [c]. *)
Fixpoint split_on (c : ascii) (s : string) : list string :=
  match s with
  | EmptyString => [EmptyString]
  | String c' rest =>
      if Ascii.eqb c' c then EmptyString :: split_on c rest
      else match split_on c rest with
           | piece :: pieces => String c' piece :: pieces
           | [] => [String c' EmptyString]
           end
  end.

(** The key paths of the leaves of a document made of objects, in
    visiting order: the segments of [leaves], before they are joined. *)
Fixpoint leaf_paths (key_sep : string) (path : list string) (node : json)
    {struct node} : list (list string) :=
  match node with
  | JDict kvs =>
      (fix go (kvs : list (string * json)) : list (list string) :=
         match kvs with
         | [] => []
         | (k, child) :: rest =>
             let seg := replace_char slash key_sep k in
             match child with
             | JAtom v => [(path ++ [seg])%list]
             | _ => leaf_paths key_sep (path ++ [seg])%list child
             end ++ go rest
         end)%list kvs
  | _ => []
  end.

(** Documents made of objects whose keys, at each level, are pairwise
    different (as the keys of a [dict] are), ASCII, and hold neither '/'
    nor the character [c]; atoms and empty arrays as the other children. *)
Fixpoint plain_keys (c : ascii) (node : json) : bool :=
  match node with
  | JAtom _ => true
  | JList l => match l with [] => true | _ => false end
  | JDict kvs =>
      (fix all (kvs : list (string * json)) : bool :=
         match kvs with
         | [] => true
         | (k, child) :: rest =>
             ascii_only k && slash_free k && char_free c k
             && negb (existsb (String.eqb k) (map fst rest))
             && plain_keys c child && all rest
         end) kvs
  end.

(** The decimal text of an integer, as [str] gives it. *)
Definition decimal (n : Z) : string := NilZero.string_of_int (Z.to_int n).

(** The leaves of a document with arrays, in visiting order, each under
    its flat key: an object key is a segment as in [leaves], an array index
    is the segment of its decimal text. *)
Fixpoint leaves_indexed (key_sep separator : string) (path : list string)
    (node : json) {struct node} : list (string * pyval) :=
  match node with
  | JDict kvs =>
      (fix go (kvs : list (string * json)) : list (string * pyval) :=
         match kvs with
         | [] => []
         | (k, child) :: rest =>
             let seg := replace_char slash key_sep k in
             match child with
             | JAtom v => [(String.concat separator (path ++ [seg])%list, v)]
             | _ => leaves_indexed key_sep separator (path ++ [seg])%list child
             end ++ go rest
         end)%list kvs
  | JList l =>
      (fix go (i : Z) (l : list json) : list (string * pyval) :=
         match l with
         | [] => []
         | child :: rest =>
             let seg := decimal i in
             match child with
             | JAtom v => [(String.concat separator (path ++ [seg])%list, v)]
             | _ => leaves_indexed key_sep separator (path ++ [seg])%list child
             end ++ go (i + 1) rest
         end)%list 0 l
  | JAtom _ => []
  end.

(** ** Facts about the model *)

Lemma bind_Ok {A B : Type} (a : A) (k : A -> result B) : (Ok a ≫= k) = k a.
Proof. reflexivity. Qed.

(** [update] is the right-biased union. *)
Lemma dict_update_union (d m : gmap string pyval) : dict_update d m = m ∪ d.
Proof.
  unfold dict_update.
  apply (map_fold_weak_ind (fun r m' => r = m' ∪ d)).
  - by rewrite (left_id_L ∅ (∪)).
  - intros k v m' r _ ->. by rewrite insert_union_l.
Qed.

Lemma dict_update_lookup_Some (d m : gmap string pyval) (k : string) (v : pyval) :
  m !! k = Some v -> dict_update d m !! k = Some v.
Proof. intros H. rewrite dict_update_union. by apply lookup_union_Some_l. Qed.

Lemma dict_update_lookup_None (d m : gmap string pyval) (k : string) :
  m !! k = None -> dict_update d m !! k = d !! k.
Proof. intros H. rewrite dict_update_union. by apply lookup_union_r. Qed.

Lemma dict_update_empty (d : gmap string pyval) : dict_update d ∅ = d.
Proof. rewrite dict_update_union. by rewrite (left_id_L ∅ (∪)). Qed.

Lemma dict_update_twice (d m : gmap string pyval) :
  dict_update (dict_update d m) m = dict_update d m.
Proof.
  rewrite !dict_update_union. rewrite (assoc_L (∪)). by rewrite (idemp_L (∪)).
Qed.

Section FlattenFacts.
Variable self : JsonLogster.
Variable separator : string.
Variable cb : option key_filter_t.
Variable parent_keys : list string.

(** The recursive call is not made for an atom. *)
Lemma flatten_item_atom recurse recurse' key v flattened :
  flatten_item self separator cb parent_keys recurse key (JAtom v) flattened
  = flatten_item self separator cb parent_keys recurse' key (JAtom v) flattened.
Proof. reflexivity. Qed.

Lemma flatten_step_eq key child flattened :
  flatten_step self separator cb parent_keys key child flattened
  = flatten_item self separator cb parent_keys
      (flatten_object self child separator cb) key child flattened.
Proof. reflexivity. Qed.

Lemma flatten_loop_cons step key child rest flattened :
  flatten_loop step ((key, child) :: rest) flattened
  = (flattened ← step key child flattened; flatten_loop step rest flattened).
Proof. reflexivity. Qed.

(** Two loops agree when their turns agree on the pairs visited. *)
Lemma flatten_loop_ext step step' items flattened :
  Forall (fun kc => forall fl, step kc.1 kc.2 fl = step' kc.1 kc.2 fl) items ->
  flatten_loop step items flattened = flatten_loop step' items flattened.
Proof.
  intros H. revert flattened.
  induction H as [|[key child] rest Hx _ IH]; intros flattened; [reflexivity|].
  cbn [fst snd] in Hx. rewrite !flatten_loop_cons, Hx.
  destruct (step' key child flattened); [|reflexivity].
  rewrite !bind_Ok. apply IH.
Qed.

Lemma flatten_loop_chars recurse mk s i flattened :
  flatten_loop (flatten_item self separator cb parent_keys recurse)
    (enumerate_from i (chars_of mk s)) flattened
  = flatten_loop (flatten_step self separator cb parent_keys)
      (enumerate_from i (chars_of mk s)) flattened.
Proof.
  apply flatten_loop_ext. revert i.
  induction s as [|c s IH]; intros i; constructor; [|apply IH].
  intros fl. apply flatten_item_atom.
Qed.

(** [flatten_object] is the loop over the pairs of the node, from the
    empty mapping. *)
Lemma flatten_object_unfold node :
  flatten_object self node separator cb parent_keys
  = (items ← iter_items node;
     flatten_loop (flatten_step self separator cb parent_keys) items ∅).
Proof.
  destruct node as [v|l|kvs].
  - destruct v as [| | | |[s|s]]; try reflexivity;
      cbn [flatten_object iter_items]; rewrite bind_Ok; apply flatten_loop_chars.
  - cbn [flatten_object iter_items]. rewrite bind_Ok.
    generalize (∅ : gmap string pyval). generalize 0.
    induction l as [|child rest IH]; intros i flattened; [reflexivity|].
    cbn [enumerate_from]. rewrite flatten_loop_cons, flatten_step_eq.
    destruct (flatten_item _ _ _ _ _ _ _ _); [|reflexivity].
    rewrite !bind_Ok. apply IH.
  - cbn [flatten_object iter_items]. rewrite bind_Ok.
    generalize (∅ : gmap string pyval).
    induction kvs as [|[k child] rest IH]; intros flattened; [reflexivity|].
    cbn [map fst snd]. rewrite flatten_loop_cons, flatten_step_eq.
    destruct (flatten_item _ _ _ _ _ _ _ _); [|reflexivity].
    rewrite !bind_Ok. apply IH.
Qed.

Lemma flatten_loop_app step pre post flattened :
  flatten_loop step (pre ++ post)%list flattened
  = (flattened ← flatten_loop step pre flattened; flatten_loop step post flattened).
Proof.
  revert flattened. induction pre as [|[key child] pre IH]; intros flattened; [reflexivity|].
  cbn [app flatten_loop]. destruct (step key child flattened); [|reflexivity].
  rewrite !bind_Ok. apply IH.
Qed.

Lemma iter_items_dict_app pre k child post :
  iter_items (JDict (pre ++ (k, child) :: post)%list)
  = Ok (map (fun kv => (PyUnicode kv.1, kv.2)) pre
          ++ (PyUnicode k, child) :: map (fun kv => (PyUnicode kv.1, kv.2)) post)%list.
Proof. cbn [iter_items]. by rewrite map_app. Qed.

(** A turn that leaves the mapping as it is can be dropped from the loop. *)
Lemma flatten_object_drop_pair node pre key child post :
  (forall flattened,
     flatten_step self separator cb parent_keys key child flattened = Ok flattened) ->
  iter_items node = Ok (pre ++ (key, child) :: post)%list ->
  flatten_object self node separator cb parent_keys
  = flatten_loop (flatten_step self separator cb parent_keys) (pre ++ post)%list ∅.
Proof.
  intros Hstep Hitems.
  rewrite flatten_object_unfold, Hitems, bind_Ok, !flatten_loop_app.
  destruct (flatten_loop _ pre ∅); [|reflexivity].
  by rewrite !bind_Ok, flatten_loop_cons, Hstep, bind_Ok.
Qed.

Lemma flatten_object_drop_dict_pair pre k child post :
  (forall flattened,
     flatten_step self separator cb parent_keys (PyUnicode k) child flattened
     = Ok flattened) ->
  flatten_object self (JDict (pre ++ (k, child) :: post)%list) separator cb parent_keys
  = flatten_object self (JDict (pre ++ post)%list) separator cb parent_keys.
Proof.
  intros Hstep.
  rewrite (flatten_object_drop_pair _ _ _ _ _ Hstep (iter_items_dict_app _ _ _ _)).
  rewrite flatten_object_unfold. cbn [iter_items]. by rewrite bind_Ok, map_app.
Qed.

End FlattenFacts.

(** Induction on a document, the hypothesis holding for every child. *)
Lemma json_ind' (P : json -> Prop) :
  (forall v, P (JAtom v)) ->
  (forall l, Forall P l -> P (JList l)) ->
  (forall kvs, Forall (fun kv => P kv.2) kvs -> P (JDict kvs)) ->
  forall node, P node.
Proof.
  intros Hatom Hlist Hdict. fix IH 1. intros [v|l|kvs].
  - apply Hatom.
  - apply Hlist. revert l. fix IHl 1. intros [|child l]; constructor.
    + apply IH.
    + apply IHl.
  - apply Hdict. revert kvs. fix IHkvs 1. intros [|[k child] kvs]; constructor.
    + apply IH.
    + apply IHkvs.
Qed.

(** Of [self], [flatten_object] reads [key_separator] only. *)
Section KeySeparatorOnly.
Variables self1 self2 : JsonLogster.
Hypothesis Hsep : key_separator self1 = key_separator self2.

Lemma visit_key_key_separator cb key :
  visit_key self1 cb key = visit_key self2 cb key.
Proof. unfold visit_key. by rewrite Hsep. Qed.

Lemma flatten_step_key_separator separator cb parent_keys key child flattened :
  (forall pk, flatten_object self1 child separator cb pk
              = flatten_object self2 child separator cb pk) ->
  flatten_step self1 separator cb parent_keys key child flattened
  = flatten_step self2 separator cb parent_keys key child flattened.
Proof.
  intros Hrec. unfold flatten_step, flatten_item.
  rewrite visit_key_key_separator.
  destruct (visit_key self2 cb key) as [[t|]|e]; [|reflexivity..].
  rewrite !bind_Ok. destruct child; [reflexivity|..];
    (destruct (py_str t); [rewrite !bind_Ok, Hrec|]; reflexivity).
Qed.

Lemma flatten_step_atom_key_separator separator cb parent_keys key v flattened :
  flatten_step self1 separator cb parent_keys key (JAtom v) flattened
  = flatten_step self2 separator cb parent_keys key (JAtom v) flattened.
Proof.
  unfold flatten_step, flatten_item. by rewrite visit_key_key_separator.
Qed.

Lemma flatten_object_key_separator node separator cb parent_keys :
  flatten_object self1 node separator cb parent_keys
  = flatten_object self2 node separator cb parent_keys.
Proof.
  revert separator cb parent_keys.
  induction node as [v|l IH|kvs IH] using json_ind';
    intros separator cb parent_keys; rewrite !flatten_object_unfold.
  - destruct v as [| | | |[s|s]]; try reflexivity; cbn [iter_items];
      rewrite !bind_Ok; apply flatten_loop_ext; generalize 0;
      (induction s as [|c s IHs]; intros i; constructor; [|apply IHs]);
      intros fl; apply flatten_step_atom_key_separator.
  - cbn [iter_items]. rewrite !bind_Ok. apply flatten_loop_ext.
    generalize 0. induction IH as [|child l Hchild _ IHl]; intros i; constructor.
    + intros fl. apply flatten_step_key_separator. intros pk. apply Hchild.
    + apply IHl.
  - cbn [iter_items]. rewrite !bind_Ok. apply flatten_loop_ext.
    induction IH as [|[k child] kvs Hchild _ IHkvs]; constructor.
    + intros fl. apply flatten_step_key_separator. intros pk. apply Hchild.
    + apply IHkvs.
Qed.

End KeySeparatorOnly.

(** ** Flattening: the claims *)

(** C6: when the key filter returns [False] for a key, the loop goes on
    with the next pair: whatever the child is, the turn leaves the mapping
    unchanged and makes no recursive call (any [recurse] gives the same
    result), so the node flattens as if the pair were not there.  In
    particular [{"secret":{"a":1},"ok":2}] with a filter that skips
    [secret] flattens to [{"ok": 2}]. *)
Theorem C6_skip_omits_subtree (self : JsonLogster) (separator : string)
    (f : key_filter_t) (parent_keys : list string) (key : pyval) (child : json) :
  f key = Ok (PyBool false) ->
  (forall recurse flattened,
     flatten_item self separator (Some f) parent_keys recurse key child flattened
     = Ok flattened)
  /\ (forall node pre post,
        iter_items node = Ok (pre ++ (key, child) :: post)%list ->
        flatten_object self node separator (Some f) parent_keys
        = flatten_loop (flatten_step self separator (Some f) parent_keys)
            (pre ++ post)%list ∅)
  /\ (forall k pre post,
        key = PyUnicode k ->
        flatten_object self (JDict (pre ++ (k, child) :: post)%list)
          separator (Some f) parent_keys
        = flatten_object self (JDict (pre ++ post)%list) separator (Some f) parent_keys)
  /\ flatten_object (init ".") doc_secret "." (Some skip_secret) []
     = Ok {["ok" := PyInt 2]}.
Proof.
  intros Hskip.
  assert (Hitem : forall recurse flattened,
             flatten_item self separator (Some f) parent_keys recurse key child flattened
             = Ok flattened).
  { intros recurse flattened. unfold flatten_item, visit_key.
    by rewrite Hskip, !bind_Ok. }
  split; [exact Hitem|]. split; [|split].
  - intros node pre post Hitems.
    apply (flatten_object_drop_pair self separator (Some f) parent_keys node pre key child post);
      [|exact Hitems].
    intros flattened. apply Hitem.
  - intros k pre post ->. apply flatten_object_drop_dict_pair.
    intros flattened. apply Hitem.
  - vm_compute. reflexivity.
Qed.

Lemma C6_skip_omits_subtree_witness :
  skip_secret (PyUnicode "secret") = Ok (PyBool false)
  /\ flatten_object (init ".") doc_secret "." (Some skip_secret) []
     = flatten_object (init ".") (JDict [("ok", JAtom (PyInt 2))]) "."
         (Some skip_secret) [].
Proof.
  split; [reflexivity|].
  apply (proj1 (proj2 (proj2
           (C6_skip_omits_subtree (init ".") "." skip_secret []
              (PyUnicode "secret") (JDict [("a", JAtom (PyInt 1))]) eq_refl)))
         "secret" [] [("ok", JAtom (PyInt 2))] eq_refl).
Defined.

(** C8: a key whose child is an empty object or an empty array gives no
    entry: the recursive call on the child returns the empty mapping, the
    turn leaves the mapping unchanged, and the node flattens as if the pair
    were not there.  In particular [{"a":{}}] flattens to [{}]. *)
Theorem C8_empty_container_no_entry (self : JsonLogster) (separator : string)
    (cb : option key_filter_t) (parent_keys : list string)
    (key : pyval) (t : text) (seg : string) (child : json) :
  child = JDict [] \/ child = JList [] ->
  visit_key self cb key = Ok (Some t) ->
  py_str t = Ok seg ->
  flatten_object self child separator cb (parent_keys ++ [seg])%list = Ok ∅
  /\ (forall flattened,
        flatten_step self separator cb parent_keys key child flattened = Ok flattened)
  /\ (forall node pre post,
        iter_items node = Ok (pre ++ (key, child) :: post)%list ->
        flatten_object self node separator cb parent_keys
        = flatten_loop (flatten_step self separator cb parent_keys) (pre ++ post)%list ∅)
  /\ (forall k pre post,
        key = PyUnicode k ->
        flatten_object self (JDict (pre ++ (k, child) :: post)%list)
          separator cb parent_keys
        = flatten_object self (JDict (pre ++ post)%list) separator cb parent_keys)
  /\ flatten_object (init ".") doc_empty "." (Some default_key_filter) [] = Ok ∅.
Proof.
  intros Hchild Hkey Hstr.
  assert (Hstep : forall flattened,
             flatten_step self separator cb parent_keys key child flattened
             = Ok flattened).
  { intros flattened. unfold flatten_step, flatten_item.
    rewrite Hkey, bind_Ok.
    destruct Hchild as [-> | ->]; rewrite Hstr, bind_Ok; cbn [flatten_object];
      by rewrite bind_Ok, dict_update_empty. }
  split; [by destruct Hchild as [-> | ->]|]. split; [exact Hstep|]. split; [|split].
  - intros node pre post Hitems.
    by apply (flatten_object_drop_pair self separator cb parent_keys node pre key child post).
  - intros k pre post ->. by apply flatten_object_drop_dict_pair.
  - vm_compute. reflexivity.
Qed.

Lemma C8_empty_container_no_entry_witness :
  flatten_object (init ".") (JDict [("a", JDict []); ("b", JAtom (PyInt 1))]) "."
    (Some default_key_filter) []
  = flatten_object (init ".") (JDict [("b", JAtom (PyInt 1))]) "."
      (Some default_key_filter) [].
Proof.
  apply (proj1 (proj2 (proj2 (proj2
           (C8_empty_container_no_entry (init ".") "." (Some default_key_filter) []
              (PyUnicode "a") (Unicode "a") "a" (JDict [])
              (or_introl eq_refl) eq_refl eq_refl))))
         "a" [] [("b", JAtom (PyInt 1))] eq_refl).
Defined.

(** C1: what the code does on [{"a":{"b":1,"c":[2,3]}}] with separator
    ['.']: the keys of an array are the integers that [enumerate] yields,
    an integer has no [replace] method, and the flattening raises
    [AttributeError], with the default key filter and without a callback;
    so does the flattening of every non-empty array, and so does
    [parse_line] on the line, which leaves the parser without metrics. *)
Theorem C1_array_raises_AttributeError :
  flatten_object (init ".") doc_nested "." (Some default_key_filter) []
  = Raise AttributeError
  /\ flatten_object (init ".") doc_nested "." None [] = Raise AttributeError
  /\ (forall self separator parent_keys child rest,
        flatten_object self (JList (child :: rest)) separator
          (Some default_key_filter) parent_keys = Raise AttributeError
        /\ flatten_object self (JList (child :: rest)) separator None parent_keys
           = Raise AttributeError)
  /\ loads_fragment line_nested = inl doc_nested
  /\ parse_line loads_fragment (init ".") line_nested
     = (init ".", Raise AttributeError).
Proof.
  split; [reflexivity|]. split; [reflexivity|]. split.
  - intros self separator parent_keys child rest.
    split; rewrite flatten_object_unfold; cbn [iter_items enumerate_from];
      rewrite bind_Ok, flatten_loop_cons; reflexivity.
  - split; vm_compute; reflexivity.
Qed.

(** C7: what the code does on [{"x/y": 5}] with the separator argument
    ['_'] in a parser whose [key_separator] is ['.']: the '/' is replaced
    by [self.key_separator], not by the argument, and the flat key is
    [x.y]; it is [x_y] when the parser's [key_separator] is ['_'] too. *)
Theorem C7_slash_replaced_by_key_separator :
  flatten_object (init ".") doc_slash "_" (Some default_key_filter) []
  = Ok {["x.y" := PyInt 5]}
  /\ ({["x.y" := PyInt 5]} : gmap string pyval) !! "x_y" = None
  /\ flatten_object (init "_") doc_slash "_" (Some default_key_filter) []
     = Ok {["x_y" := PyInt 5]}.
Proof. split; [|split]; vm_compute; reflexivity. Qed.

(** C10: what the code does when the key filter returns a falsy value
    other than [False]: the key is not skipped; with the empty string the
    leaf is stored under the empty segment, with the integer [0] the
    '/' substitution raises [AttributeError], as it does for the index [0]
    of an array under the default filter. *)
Theorem C10_zero_key_raises_AttributeError :
  flatten_object (init ".") doc_a1 "." (Some always_zero) [] = Raise AttributeError
  /\ flatten_object (init ".") doc_a1 "." (Some always_empty) []
     = Ok {["" := PyInt 1]}
  /\ flatten_object (init ".") (JList [JAtom (PyInt 5)]) "."
       (Some default_key_filter) [] = Raise AttributeError.
Proof. split; [|split]; vm_compute; reflexivity. Qed.

(** ** Parsing lines: the claims *)

Section ParseLine.
Variable json_loads : decoder.

(** The three ways [parse_line] ends. *)
Lemma parse_line_decode_error self line msg :
  json_loads line = inr msg ->
  parse_line json_loads self line = (self, Raise (ValueError msg)).
Proof. intros H. unfold parse_line. by rewrite H. Qed.

Lemma parse_line_flatten_error self line node e :
  json_loads line = inl node ->
  flatten_object self node (key_separator self) (Some (key_filter self)) [] = Raise e ->
  parse_line json_loads self line = (self, Raise e).
Proof. intros H1 H2. unfold parse_line. by rewrite H1, H2. Qed.

Lemma parse_line_ok self line node flattened :
  json_loads line = inl node ->
  flatten_object self node (key_separator self) (Some (key_filter self)) []
  = Ok flattened ->
  parse_line json_loads self line
  = (with_metrics self (dict_update (metrics self) flattened), Ok tt).
Proof. intros H1 H2. unfold parse_line. by rewrite H1, H2. Qed.

End ParseLine.

(** C4: [parse_line] is atomic.  When the decoder rejects the line the
    call raises and the parser is as before; when the flattening of the
    decoded line raises, as it does when the key filter raises on a key
    that the loop reaches, the call raises the same exception and the
    parser is as before, whatever had been flattened until then; and these
    are the only ways the call raises: whenever it does, the accumulated
    mapping is the one before the call. *)
Theorem C4_parse_line_atomic (json_loads : decoder) (self : JsonLogster)
    (line : string) :
  (forall msg,
     json_loads line = inr msg ->
     parse_line json_loads self line = (self, Raise (ValueError msg)))
  /\ (forall node e,
        json_loads line = inl node ->
        flatten_object self node (key_separator self) (Some (key_filter self)) []
        = Raise e ->
        parse_line json_loads self line = (self, Raise e))
  /\ (forall node pre key child post flattened e,
        json_loads line = inl node ->
        iter_items node = Ok (pre ++ (key, child) :: post)%list ->
        flatten_loop
          (flatten_step self (key_separator self) (Some (key_filter self)) [])
          pre ∅ = Ok flattened ->
        key_filter self key = Raise e ->
        parse_line json_loads self line = (self, Raise e))
  /\ (forall e,
        (parse_line json_loads self line).2 = Raise e ->
        (parse_line json_loads self line).1 = self
        /\ metrics (parse_line json_loads self line).1 = metrics self
        /\ ((exists msg, json_loads line = inr msg /\ e = ValueError msg)
            \/ (exists node,
                  json_loads line = inl node
                  /\ flatten_object self node (key_separator self)
                       (Some (key_filter self)) [] = Raise e))).
Proof.
  split; [intros msg; apply parse_line_decode_error|].
  split; [intros node e; apply parse_line_flatten_error|].
  split.
  { intros node pre key child post flattened e Hloads Hitems Hpre Hkey.
    apply (parse_line_flatten_error json_loads self line node e Hloads).
    rewrite flatten_object_unfold, Hitems, bind_Ok, flatten_loop_app, Hpre, bind_Ok.
    rewrite flatten_loop_cons, flatten_step_eq. unfold flatten_item, visit_key.
    by rewrite Hkey. }
  intros e. unfold parse_line.
  destruct (json_loads line) as [node|msg] eqn:Hloads.
  - destruct (flatten_object self node _ _ _) as [flattened|e'] eqn:Hflat;
      cbn [fst snd]; intros He; [discriminate|].
    injection He as <-. split; [reflexivity|]. split; [reflexivity|].
    right. by exists node.
  - cbn [fst snd]. intros He. injection He as <-.
    split; [reflexivity|]. split; [reflexivity|]. left. by exists msg.
Qed.

(** The decoder rejects the line; the key filter raises on the second key,
    after the first one has been flattened. *)
Lemma C4_parse_line_atomic_witness :
  parse_line loads_fragment (with_metrics (init ".") {["a" := PyInt 7]})
    line_malformed
  = (with_metrics (init ".") {["a" := PyInt 7]}, Raise (ValueError no_json))
  /\ parse_line loads_fragment
       (with_key_filter (with_metrics (init ".") {["a" := PyInt 7]}) raise_on_b)
       line_a1b2
     = (with_key_filter (with_metrics (init ".") {["a" := PyInt 7]}) raise_on_b,
        Raise (UserException "KeyError")).
Proof.
  split.
  - apply (proj1 (C4_parse_line_atomic loads_fragment
                    (with_metrics (init ".") {["a" := PyInt 7]}) line_malformed)).
    vm_compute. reflexivity.
  - apply (proj1 (proj2 (proj2 (C4_parse_line_atomic loads_fragment
                    (with_key_filter (with_metrics (init ".") {["a" := PyInt 7]})
                       raise_on_b) line_a1b2)))
             doc_a1b2 [(PyUnicode "a", JAtom (PyInt 1))] (PyUnicode "b")
             (JAtom (PyInt 2)) [] {["a" := PyInt 1]} (UserException "KeyError"));
      vm_compute; reflexivity.
Defined.

(** C3, as the code has it: when the decoder rejects the line,
    [parse_line] raises the decoder's [ValueError] with the decoder's
    message, and the parser is as before the call; no
    [LogsterParsingException] is raised and the line is not in the
    exception. *)
Theorem C3_decode_failure_raises_ValueError (json_loads : decoder)
    (self : JsonLogster) (line msg : string) :
  json_loads line = inr msg ->
  parse_line json_loads self line = (self, Raise (ValueError msg)).
Proof. apply parse_line_decode_error. Qed.

Lemma C3_decode_failure_raises_ValueError_witness :
  parse_line loads_fragment (init ".") line_malformed
  = (init ".", Raise (ValueError no_json)).
Proof.
  apply (C3_decode_failure_raises_ValueError loads_fragment (init ".")
           line_malformed no_json).
  vm_compute. reflexivity.
Defined.

(** C3 as stated fails: on the malformed line [not json] the exception is a
    [ValueError] with the decoder's message, not a
    [LogsterParsingException] with the line. *)
Lemma C3_counterexample :
  loads_fragment line_malformed = inr no_json
  /\ (parse_line loads_fragment (init ".") line_malformed).2
     = Raise (ValueError no_json)
  /\ (parse_line loads_fragment (init ".") line_malformed).2
     <> Raise (LogsterParsingException line_malformed).
Proof. split; [|split]; [vm_compute; reflexivity..|discriminate]. Qed.

(** C5: [update] is last-value-wins and sticky: a key of the flattened
    mapping holds the new value afterwards, a key absent from it keeps the
    value it had; so for [parse_line] on a line that decodes and flattens.
    In particular the lines [{"a":1,"b":2}] then [{"a":3}] leave [a = 3]
    and [b = 2], and [{"a":1}] then [{"a":2}] leave [a = 2]. *)
Theorem C5_update_last_value_wins_sticky (json_loads : decoder) :
  (forall state flattened k v,
     flattened !! k = Some v -> dict_update state flattened !! k = Some v)
  /\ (forall state flattened k,
        flattened !! k = None -> dict_update state flattened !! k = state !! k)
  /\ (forall self line node flattened,
        json_loads line = inl node ->
        flatten_object self node (key_separator self) (Some (key_filter self)) []
        = Ok flattened ->
        (parse_line json_loads self line).2 = Ok tt
        /\ (forall k v, flattened !! k = Some v ->
              metrics (parse_line json_loads self line).1 !! k = Some v)
        /\ (forall k, flattened !! k = None ->
              metrics (parse_line json_loads self line).1 !! k = metrics self !! k))
  /\ (forall line1 line2,
        json_loads line1 = inl doc_a1b2 ->
        json_loads line2 = inl doc_a3 ->
        metrics (parse_line json_loads
                   (parse_line json_loads (init ".") line1).1 line2).1
        = {["a" := PyInt 3; "b" := PyInt 2]})
  /\ (forall line1 line2,
        json_loads line1 = inl doc_a1 ->
        json_loads line2 = inl doc_a2 ->
        metrics (parse_line json_loads
                   (parse_line json_loads (init ".") line1).1 line2).1
        = {["a" := PyInt 2]}).
Proof.
  split; [intros; by apply dict_update_lookup_Some|].
  split; [intros; by apply dict_update_lookup_None|].
  split; [|split].
  - intros self line node flattened Hloads Hflat.
    rewrite (parse_line_ok json_loads self line node flattened Hloads Hflat).
    cbn [fst snd with_metrics metrics]. split; [reflexivity|].
    split; intros; [by apply dict_update_lookup_Some|by apply dict_update_lookup_None].
  - intros line1 line2 H1 H2.
    rewrite (parse_line_ok json_loads (init ".") line1 doc_a1b2
               {["a" := PyInt 1; "b" := PyInt 2]} H1 eq_refl).
    cbn [fst].
    rewrite (parse_line_ok json_loads
               (with_metrics (init ".")
                  (dict_update (metrics (init ".")) {["a" := PyInt 1; "b" := PyInt 2]}))
               line2 doc_a3 {["a" := PyInt 3]} H2 eq_refl).
    vm_compute. reflexivity.
  - intros line1 line2 H1 H2.
    rewrite (parse_line_ok json_loads (init ".") line1 doc_a1
               {["a" := PyInt 1]} H1 eq_refl).
    cbn [fst].
    rewrite (parse_line_ok json_loads
               (with_metrics (init ".")
                  (dict_update (metrics (init ".")) {["a" := PyInt 1]}))
               line2 doc_a2 {["a" := PyInt 2]} H2 eq_refl).
    vm_compute. reflexivity.
Qed.

(** The two examples, from the lines themselves. *)
Lemma C5_update_last_value_wins_sticky_witness :
  metrics (parse_line loads_fragment
             (parse_line loads_fragment (init ".") line_a1b2).1 line_a3).1
  = {["a" := PyInt 3; "b" := PyInt 2]}
  /\ metrics (parse_line loads_fragment
                (parse_line loads_fragment (init ".") line_a1).1 line_a2).1
     = {["a" := PyInt 2]}.
Proof.
  split.
  - apply (proj1 (proj2 (proj2 (proj2
             (C5_update_last_value_wins_sticky loads_fragment))))
             line_a1b2 line_a3); vm_compute; reflexivity.
  - apply (proj2 (proj2 (proj2 (proj2
             (C5_update_last_value_wins_sticky loads_fragment))))
             line_a1 line_a2); vm_compute; reflexivity.
Defined.

(** C9: [update] is idempotent: the same flattened mapping merged twice
    gives the state that merging it once gives; so parsing a line twice
    leaves the parser that parsing it once leaves. *)
Theorem C9_update_idempotent :
  (forall state flattened : gmap string pyval,
     dict_update (dict_update state flattened) flattened
     = dict_update state flattened)
  /\ (forall (json_loads : decoder) self line,
        (parse_line json_loads (parse_line json_loads self line).1 line).1
        = (parse_line json_loads self line).1).
Proof.
  split; [apply dict_update_twice|].
  intros json_loads self line.
  destruct (json_loads line) as [node|msg] eqn:Hloads.
  - destruct (flatten_object self node (key_separator self) (Some (key_filter self)) [])
      as [flattened|e] eqn:Hflat.
    + rewrite (parse_line_ok json_loads self line node flattened Hloads Hflat).
      cbn [fst].
      rewrite (parse_line_ok json_loads _ line node flattened Hloads).
      * cbn [fst]. unfold with_metrics. cbn [metrics key_separator key_filter duration].
        by rewrite dict_update_twice.
      * cbn [with_metrics key_separator key_filter]. rewrite <- Hflat.
        by apply flatten_object_key_separator.
    + rewrite (parse_line_flatten_error json_loads self line node e Hloads Hflat).
      cbn [fst]. by rewrite (parse_line_flatten_error json_loads self line node e Hloads Hflat).
  - rewrite (parse_line_decode_error json_loads self line msg Hloads). cbn [fst].
    by rewrite (parse_line_decode_error json_loads self line msg Hloads).
Qed.

(** ** Emitting records: the claims *)

Lemma metric_object_emitted (metric_name : string) (metric_value : pyval) :
  ascii_value metric_value = true ->
  metric_object metric_name metric_value
  = Ok (emitted_record (metric_name, metric_value)).
Proof.
  destruct metric_value as [|b|n|x|[s|s]]; cbn; intros H; try reflexivity.
  by rewrite H.
Qed.

Lemma get_state_loop_emitted (items : list (string * pyval))
    (metric_objects : list MetricObject.t) :
  Forall (fun kv => ascii_value kv.2 = true) items ->
  get_state_loop items metric_objects
  = Ok (metric_objects ++ (emitted_record <$> items))%list.
Proof.
  intros H. revert metric_objects.
  induction H as [|[k v] rest Hv _ IH]; intros metric_objects.
  - cbn. by rewrite app_nil_r.
  - cbn [get_state_loop]. rewrite (metric_object_emitted k v Hv), bind_Ok, IH.
    by rewrite <- app_assoc.
Qed.

Lemma emitted_type_tag (v : pyval) : emitted_type v ∈ ["int32"; "float"; "string"].
Proof. destruct v; cbn; set_solver. Qed.

(** C2, as the code has it: when every [unicode] value of the accumulated
    mapping is ASCII text, [get_state] stores the duration and returns one
    record per accumulated pair, named by the key, whose type is one of
    [int32], [float] and [string]: a float keeps its value under [float];
    a boolean becomes [0] or [1] and an integer of any size keeps its
    value, both under [int32]; text and [None] become their text under
    [string]. *)
Theorem C2_get_state_records (self : JsonLogster) (d : pyval) :
  map_Forall (fun _ v => ascii_value v = true) (metrics self) ->
  let recs := emitted_record <$> map_to_list (metrics self) in
  get_state self d = (with_duration self d, Ok recs)
  /\ length recs = size (metrics self)
  /\ NoDup (MetricObject.name <$> recs)
  /\ (forall k v, metrics self !! k = Some v ->
        MetricObject.mk k (emitted_value v) (emitted_type v) ∈ recs)
  /\ (forall r, r ∈ recs ->
        exists v, metrics self !! MetricObject.name r = Some v
                  /\ MetricObject.value r = emitted_value v
                  /\ MetricObject.type r = emitted_type v
                  /\ MetricObject.type r ∈ ["int32"; "float"; "string"])
  /\ (forall k x, metric_object k (PyFloat x) = Ok (MetricObject.mk k (PyFloat x) "float"))
  /\ (forall k n, metric_object k (PyInt n) = Ok (MetricObject.mk k (PyInt n) "int32"))
  /\ (forall k, metric_object k (PyBool true) = Ok (MetricObject.mk k (PyInt 1) "int32"))
  /\ (forall k, metric_object k (PyBool false) = Ok (MetricObject.mk k (PyInt 0) "int32"))
  /\ (forall k s, ascii_only s = true ->
        metric_object k (PyUnicode s) = Ok (MetricObject.mk k (PyStr s) "string"))
  /\ (forall k, metric_object k PyNone = Ok (MetricObject.mk k (PyStr "None") "string")).
Proof.
  intros Hascii recs.
  split.
  { unfold get_state. cbn [metrics]. rewrite get_state_loop_emitted; [reflexivity|].
    apply map_Forall_to_list in Hascii. eapply Forall_impl; [exact Hascii|].
    by intros [k v]. }
  split; [unfold recs; by rewrite length_fmap, length_map_to_list|].
  split.
  { unfold recs. rewrite <- list_fmap_compose.
    assert (Heq : MetricObject.name ∘ emitted_record = (fst : string * pyval -> string))
      by reflexivity.
    rewrite Heq. apply NoDup_fst_map_to_list. }
  split.
  { intros k v Hkv. unfold recs. apply list_elem_of_fmap.
    exists (k, v). split; [reflexivity|]. by apply elem_of_map_to_list. }
  split.
  { intros r Hr. unfold recs in Hr. apply list_elem_of_fmap in Hr as [[k v] [-> Hkv]].
    apply elem_of_map_to_list in Hkv. exists v. cbn.
    repeat split; [exact Hkv|]. apply emitted_type_tag. }
  repeat split. intros k s Hs. cbn. by rewrite Hs.
Qed.

Lemma C2_get_state_records_witness :
  get_state (with_metrics (init ".") metrics_sample) (PyInt 60)
  = (with_duration (with_metrics (init ".") metrics_sample) (PyInt 60),
     Ok [MetricObject.mk "word" (PyStr "x") "string";
         MetricObject.mk "nothing" (PyStr "None") "string";
         MetricObject.mk "flag" (PyInt 1) "int32";
         MetricObject.mk "ratio" (PyFloat float_1_5) "float";
         MetricObject.mk "big" (PyInt 123456789012345) "int32"]).
Proof.
  refine (proj1 (C2_get_state_records (with_metrics (init ".") metrics_sample)
                   (PyInt 60) _)).
  apply map_Forall_to_list. vm_compute. repeat constructor.
Defined.

(** C2 as stated fails: the record of an integer has the type [int32],
    which is none of [integer], [float] and [string]. *)
Lemma C2_counterexample :
  (get_state (with_metrics (init ".") {["big" := PyInt 123456789012345]}) (PyInt 60)).2
  = Ok [MetricObject.mk "big" (PyInt 123456789012345) "int32"]
  /\ "int32" ∉ ["integer"; "float"; "string"].
Proof.
  split; [vm_compute; reflexivity|].
  rewrite !not_elem_of_cons. repeat split; try discriminate. apply not_elem_of_nil.
Qed.

(** ** Further properties of the flattening *)

Lemma ascii_only_app (s1 s2 : string) :
  ascii_only (s1 ++ s2) = ascii_only s1 && ascii_only s2.
Proof.
  induction s1 as [|c s1 IH]; [reflexivity|].
  change (ascii_only (String c (s1 ++ s2))
          = ascii_only (String c s1) && ascii_only s2).
  cbn [ascii_only]. by rewrite IH, andb_assoc.
Qed.

Lemma ascii_only_replace_char (sep s : string) :
  ascii_only sep = true -> ascii_only s = true ->
  ascii_only (replace_char slash sep s) = true.
Proof.
  intros Hsep. induction s as [|c s IH]; [reflexivity|].
  cbn. intros [Hc Hs]%andb_prop. destruct (Ascii.eqb c slash).
  - rewrite ascii_only_app, Hsep. by apply IH.
  - cbn. rewrite Hc. by apply IH.
Qed.

Lemma last_wins_app (l1 l2 : list (string * pyval)) :
  last_wins (l1 ++ l2) = last_wins l2 ∪ last_wins l1.
Proof. unfold last_wins. by rewrite rev_app_distr, list_to_map_app. Qed.

Lemma last_wins_singleton (k : string) (v : pyval) (m : gmap string pyval) :
  last_wins [(k, v)] ∪ m = <[k := v]> m.
Proof.
  unfold last_wins. change (rev [(k, v)]) with [(k, v)].
  by rewrite list_to_map_cons, list_to_map_nil, <- insert_union_l, (left_id_L ∅ (∪)).
Qed.

Section ObjectsOnly.
Variable self : JsonLogster.
Variable separator : string.
Variable cb : option key_filter_t.
Hypothesis Hsep : ascii_only (key_separator self) = true.
Hypothesis Hcb : keeps_keys cb.

Lemma visit_key_unicode k :
  visit_key self cb (PyUnicode k)
  = Ok (Some (Unicode (replace_char slash (key_separator self) k))).
Proof.
  unfold visit_key.
  assert (Hf : match cb with Some f => f (PyUnicode k) | None => Ok (PyUnicode k) end
               = Ok (PyUnicode k)).
  { destruct cb as [f|] eqn:E; [|reflexivity]. by apply Hcb. }
  rewrite Hf, bind_Ok. cbn. by rewrite Hsep.
Qed.

Lemma flatten_object_leaves node :
  objects_only node = true ->
  match node with
  | JAtom _ => True
  | _ => forall parent_keys,
           flatten_object self node separator cb parent_keys
           = Ok (last_wins (leaves (key_separator self) separator parent_keys node))
  end.
Proof.
  induction node as [v|l IH|kvs IH] using json_ind'; intros Hobj; [exact I|..].
  - destruct l; [|discriminate]. reflexivity.
  - intros parent_keys. rewrite flatten_object_unfold. cbn [iter_items leaves].
    rewrite bind_Ok.
    assert (Hloop : forall flattened,
      flatten_loop (flatten_step self separator cb parent_keys)
        (map (fun kv => (PyUnicode kv.1, kv.2)) kvs) flattened
      = Ok (last_wins
              ((fix go (kvs : list (string * json)) : list (string * pyval) :=
                  match kvs with
                  | [] => []
                  | (k, child) :: rest =>
                      let seg := replace_char slash (key_separator self) k in
                      match child with
                      | JAtom v => [(String.concat separator (parent_keys ++ [seg])%list, v)]
                      | _ => leaves (key_separator self) separator
                               (parent_keys ++ [seg])%list child
                      end ++ go rest
                  end)%list kvs) ∪ flattened)).
    { cbn [objects_only] in Hobj.
      induction IH as [|[k child] rest Hchild _ IHrest]; intros flattened.
      - cbn. by rewrite (left_id_L ∅ (∪)).
      - apply andb_prop in Hobj as [[Hk Hc]%andb_prop Hrest].
        cbn [map fst snd]. rewrite flatten_loop_cons, flatten_step_eq.
        unfold flatten_item. rewrite visit_key_unicode, bind_Ok.
        cbn zeta. rewrite last_wins_app, <- (assoc_L (∪)).
        assert (Hstr : py_str (Unicode (replace_char slash (key_separator self) k))
                       = Ok (replace_char slash (key_separator self) k)).
        { cbn. by rewrite (ascii_only_replace_char _ _ Hsep Hk). }
        destruct child as [v|l|kvs']; rewrite Hstr, !bind_Ok.
        + rewrite (IHrest Hrest). by rewrite last_wins_singleton.
        + rewrite (Hchild Hc), !bind_Ok, (IHrest Hrest). by rewrite dict_update_union.
        + rewrite (Hchild Hc), !bind_Ok, (IHrest Hrest). by rewrite dict_update_union. }
    rewrite Hloop. by rewrite (right_id_L ∅ (∪)).
Qed.

End ObjectsOnly.

(** Flattening correctness, for documents made of objects: under the
    identity key filter (or without a callback), an ASCII [key_separator]
    and ASCII keys, an object, nested to any depth, flattens to the mapping
    of its leaves, each under the path of its keys ('/' replaced by
    [self.key_separator]) joined by the separator, the last leaf winning
    where two paths give one flat key. *)
Theorem flatten_object_objects_correct (self : JsonLogster) (separator : string)
    (cb : option key_filter_t) (parent_keys : list string)
    (kvs : list (string * json)) :
  ascii_only (key_separator self) = true ->
  keeps_keys cb ->
  objects_only (JDict kvs) = true ->
  flatten_object self (JDict kvs) separator cb parent_keys
  = Ok (last_wins (leaves (key_separator self) separator parent_keys (JDict kvs))).
Proof.
  intros Hsep Hcb Hobj.
  apply (flatten_object_leaves self separator cb Hsep Hcb (JDict kvs) Hobj).
Qed.

Lemma flatten_object_objects_correct_witness :
  flatten_object (init ".") doc_objects "." (Some default_key_filter) []
  = Ok {["a.b" := PyInt 1; "a.c.d.e" := PyInt 2]}.
Proof.
  unfold doc_objects.
  rewrite flatten_object_objects_correct.
  - vm_compute. reflexivity.
  - reflexivity.
  - intros f [= <-] key. reflexivity.
  - reflexivity.
Defined.

Lemma enumerate_from_key {A : Type} (l : list A) (i : Z) (key : pyval) (x : A) :
  (key, x) ∈ enumerate_from i l -> exists n, key = PyInt n.
Proof.
  revert i. induction l as [|y l IH]; intros i H; cbn in H.
  - by apply elem_of_nil in H.
  - apply elem_of_cons in H as [[= -> _]|H]; [by exists i|by apply (IH (i + 1))].
Qed.

(** Skipping: a key is skipped exactly when the value that the callback
    returns for it (the key itself without a callable) is [False]; and
    without a callable no key of a node is skipped. *)
Theorem visit_key_skips_iff_False (self : JsonLogster)
    (cb : option key_filter_t) (key : pyval) :
  (visit_key self cb key = Ok None
   <-> match cb with Some f => f key | None => Ok key end = Ok (PyBool false))
  /\ (forall node items child,
        iter_items node = Ok items -> (key, child) ∈ items ->
        visit_key self None key <> Ok None).
Proof.
  split.
  - unfold visit_key.
    destruct (match cb with Some f => f key | None => Ok key end) as [v|e];
      [|split; discriminate].
    rewrite bind_Ok. destruct (is_False v) eqn:Hv.
    + split; [|reflexivity]. intros _. by destruct v as [|[]| | |].
    + split.
      * destruct (py_replace_slash v (key_separator self)); discriminate.
      * intros [= ->]. discriminate.
  - intros node items child Hitems Hin.
    assert (Hkey : (exists n, key = PyInt n) \/ (exists k, key = PyUnicode k)).
    { destruct node as [v|l|kvs]; cbn in Hitems.
      - destruct v as [| | | |[s|s]]; try discriminate; injection Hitems as <-;
          left; by apply enumerate_from_key in Hin.
      - injection Hitems as <-. left. by apply enumerate_from_key in Hin.
      - injection Hitems as <-. right.
        apply list_elem_of_fmap in Hin as [[k c] [[= -> _] _]]. by exists k. }
    unfold visit_key. destruct Hkey as [[n ->]|[k ->]]; cbn; [discriminate|].
    destruct (ascii_only (key_separator self)); discriminate.
Qed.

Lemma slash_free_app (s1 s2 : string) :
  slash_free (s1 ++ s2) = slash_free s1 && slash_free s2.
Proof.
  induction s1 as [|c s1 IH]; [reflexivity|].
  change (slash_free (String c (s1 ++ s2))
          = slash_free (String c s1) && slash_free s2).
  cbn [slash_free]. by rewrite IH, andb_assoc.
Qed.

Lemma slash_free_replace_char (sep s : string) :
  slash_free sep = true -> slash_free (replace_char slash sep s) = true.
Proof.
  intros Hsep. induction s as [|c s IH]; [reflexivity|].
  cbn [replace_char]. destruct (Ascii.eqb c slash) eqn:Hc.
  - by rewrite slash_free_app, Hsep.
  - cbn [slash_free]. by rewrite Hc.
Qed.

(** The '/' substitution: the key that the loop goes on with is the text
    that the callback returned, every '/' replaced by
    [self.key_separator]; when [self.key_separator] holds no '/', the
    segment holds none. *)
Theorem visit_key_replaces_slash (self : JsonLogster)
    (cb : option key_filter_t) (key : pyval) (t : text) :
  visit_key self cb key = Ok (Some t) ->
  (exists s,
     (match cb with Some f => f key | None => Ok key end = Ok (PyStr s)
      /\ t = Bytes (replace_char slash (key_separator self) s))
     \/ (match cb with Some f => f key | None => Ok key end = Ok (PyUnicode s)
         /\ t = Unicode (replace_char slash (key_separator self) s)))
  /\ (slash_free (key_separator self) = true ->
      match t with Bytes s | Unicode s => slash_free s = true end).
Proof.
  unfold visit_key.
  destruct (match cb with Some f => f key | None => Ok key end) as [v|e];
    [|discriminate].
  rewrite bind_Ok. destruct (is_False v); [discriminate|].
  destruct v as [| | | |[s|s]]; cbn; try discriminate.
  - intros [= <-]. split; [exists s; by left|].
    apply slash_free_replace_char.
  - destruct (ascii_only (key_separator self)); cbn; [|discriminate].
    intros [= <-]. split; [exists s; by right|].
    apply slash_free_replace_char.
Qed.

Lemma visit_key_replaces_slash_witness :
  visit_key (init "_") (Some default_key_filter) (PyUnicode "x/y")
  = Ok (Some (Unicode "x_y"))
  /\ slash_free "x_y" = true.
Proof.
  split; [reflexivity|].
  apply (proj2 (visit_key_replaces_slash (init "_") (Some default_key_filter)
                  (PyUnicode "x/y") (Unicode "x_y") eq_refl)).
  reflexivity.
Defined.

(** Emission reads the accumulated mapping and leaves it: [get_state]
    changes [duration] only and a second call returns the same records;
    and emitting between two lines does not disturb the accumulation:
    [parse_line] after [get_state] accumulates what it accumulates without
    it, and ends the same way. *)
Theorem get_state_keeps_metrics (self : JsonLogster) (d d' : pyval) :
  metrics (get_state self d).1 = metrics self
  /\ key_separator (get_state self d).1 = key_separator self
  /\ duration (get_state self d).1 = Some d
  /\ (get_state (get_state self d).1 d').2 = (get_state self d).2
  /\ (forall (json_loads : decoder) line,
        metrics (parse_line json_loads (get_state self d).1 line).1
        = metrics (parse_line json_loads self line).1
        /\ (parse_line json_loads (get_state self d).1 line).2
           = (parse_line json_loads self line).2).
Proof.
  repeat split; change (get_state self d).1 with (with_duration self d);
    unfold parse_line; (destruct (json_loads line) as [node|msg]; [|reflexivity]);
    cbn [with_duration key_separator key_filter];
    rewrite (flatten_object_key_separator (with_duration self d) self eq_refl);
    by destruct (flatten_object self node _ _ _).
Qed.


(** ** The accumulated mapping over several lines *)

(** No removal: whatever the line and however the call ends, every key
    accumulated before [parse_line] is still accumulated after it, so the
    mapping never shrinks; and a call adds at most the entries of the
    flattened line. *)
Theorem parse_line_keeps_keys (json_loads : decoder) (self : JsonLogster)
    (line : string) :
  dom (metrics self) ⊆ dom (metrics (parse_line json_loads self line).1)
  /\ (size (metrics self) <= size (metrics (parse_line json_loads self line).1))%nat
  /\ (forall node flattened,
        json_loads line = inl node ->
        flatten_object self node (key_separator self) (Some (key_filter self)) []
        = Ok flattened ->
        dom (metrics (parse_line json_loads self line).1)
        = dom flattened ∪ dom (metrics self)).
Proof.
  assert (Hdom : dom (metrics self)
                 ⊆ dom (metrics (parse_line json_loads self line).1)).
  { unfold parse_line. destruct (json_loads line) as [node|msg]; [|done].
    destruct (flatten_object self node _ _ _) as [flattened|e]; [|done].
    cbn [fst metrics]. rewrite dict_update_union, dom_union_L. set_solver. }
  split; [exact Hdom|]. split.
  - rewrite <- !size_dom. by apply subseteq_size.
  - intros node flattened Hloads Hflat.
    rewrite (parse_line_ok json_loads self line node flattened Hloads Hflat).
    cbn [fst with_metrics metrics]. by rewrite dict_update_union, dom_union_L.
Qed.

(** Two lines in a row: when both decode and flatten, the mapping after
    them is the second flattened mapping over the first over the prior
    state.  The order of the lines is observable exactly through the keys
    they share: lines whose flattened mappings have no key in common can
    be parsed in either order, and a key on which they differ ends with
    the value of the line parsed last. *)
Theorem parse_line_twice (json_loads : decoder) (self : JsonLogster)
    (line1 line2 : string) (node1 node2 : json)
    (flat1 flat2 : gmap string pyval) :
  json_loads line1 = inl node1 ->
  json_loads line2 = inl node2 ->
  flatten_object self node1 (key_separator self) (Some (key_filter self)) []
  = Ok flat1 ->
  flatten_object self node2 (key_separator self) (Some (key_filter self)) []
  = Ok flat2 ->
  let after12 := (parse_line json_loads (parse_line json_loads self line1).1 line2).1 in
  let after21 := (parse_line json_loads (parse_line json_loads self line2).1 line1).1 in
  metrics after12 = flat2 ∪ (flat1 ∪ metrics self)
  /\ metrics after21 = flat1 ∪ (flat2 ∪ metrics self)
  /\ (flat1 ##ₘ flat2 -> metrics after12 = metrics after21)
  /\ (forall k v1 v2,
        flat1 !! k = Some v1 -> flat2 !! k = Some v2 ->
        metrics after12 !! k = Some v2 /\ metrics after21 !! k = Some v1).
Proof.
  intros H1 H2 Hf1 Hf2 after12 after21.
  assert (E12 : metrics after12 = flat2 ∪ (flat1 ∪ metrics self)).
  { unfold after12.
    rewrite (parse_line_ok json_loads self line1 node1 flat1 H1 Hf1). cbn [fst].
    rewrite (parse_line_ok json_loads _ line2 node2 flat2 H2).
    - cbn [fst with_metrics metrics]. by rewrite !dict_update_union.
    - cbn [with_metrics key_separator key_filter]. rewrite <- Hf2.
      by apply flatten_object_key_separator. }
  assert (E21 : metrics after21 = flat1 ∪ (flat2 ∪ metrics self)).
  { unfold after21.
    rewrite (parse_line_ok json_loads self line2 node2 flat2 H2 Hf2). cbn [fst].
    rewrite (parse_line_ok json_loads _ line1 node1 flat1 H1).
    - cbn [fst with_metrics metrics]. by rewrite !dict_update_union.
    - cbn [with_metrics key_separator key_filter]. rewrite <- Hf1.
      by apply flatten_object_key_separator. }
  split; [exact E12|]. split; [exact E21|]. split.
  - intros Hdisj. rewrite E12, E21, !(assoc_L (∪)).
    by rewrite (map_union_comm flat2 flat1).
  - intros k v1 v2 Hk1 Hk2. rewrite E12, E21.
    split; by apply lookup_union_Some_l.
Qed.

Lemma parse_line_twice_witness :
  metrics (parse_line loads_fragment
             (parse_line loads_fragment (init ".") line_a1b2).1 line_a3).1
  = {["a" := PyInt 3]} ∪ ({["a" := PyInt 1; "b" := PyInt 2]} ∪ ∅).
Proof.
  refine (proj1 (parse_line_twice loads_fragment (init ".") line_a1b2 line_a3
                   doc_a1b2 doc_a3 {["a" := PyInt 1; "b" := PyInt 2]}
                   {["a" := PyInt 3]} _ _ _ _)); vm_compute; reflexivity.
Defined.

(** ** Emission: when it fails *)

Lemma metric_object_not_ascii (metric_name : string) (metric_value : pyval) :
  ascii_value metric_value = false ->
  metric_object metric_name metric_value = Raise UnicodeEncodeError.
Proof.
  destruct metric_value as [|b|n|x|[s|s]]; cbn; try discriminate.
  by intros ->.
Qed.

Lemma get_state_loop_raises (items : list (string * pyval))
    (metric_objects : list MetricObject.t) :
  Exists (fun kv => ascii_value kv.2 = false) items ->
  get_state_loop items metric_objects = Raise UnicodeEncodeError.
Proof.
  revert metric_objects.
  induction items as [|[k v] rest IH]; intros metric_objects H.
  - by apply Exists_nil in H.
  - cbn [get_state_loop]. destruct (ascii_value v) eqn:Hv.
    + rewrite (metric_object_emitted k v Hv), bind_Ok. apply IH.
      apply Exists_cons in H as [H|H]; [|exact H]. cbn in H. congruence.
    + by rewrite (metric_object_not_ascii k v Hv).
Qed.

(** [get_state] fails exactly when an accumulated [unicode] value holds a
    character that is not ASCII: [str] of that value raises
    [UnicodeEncodeError] and no record at all is returned; the duration has
    been stored by then, and the accumulated mapping is untouched. *)
Theorem get_state_raises_iff_not_ascii (self : JsonLogster) (d : pyval) :
  ((get_state self d).2 = Raise UnicodeEncodeError
   <-> exists k s, metrics self !! k = Some (PyUnicode s) /\ ascii_only s = false)
  /\ (forall e, (get_state self d).2 = Raise e -> e = UnicodeEncodeError)
  /\ (get_state self d).1 = with_duration self d.
Proof.
  unfold get_state. cbn [fst snd metrics].
  destruct (Forall_Exists_dec
              (fun kv : string * pyval => ascii_value kv.2 = true)
              (fun kv : string * pyval => ascii_value kv.2 = false)
              (fun kv => match ascii_value kv.2 as b
                               return {b = true} + {b = false} with
                         | true => left eq_refl
                         | false => right eq_refl
                         end)
              (map_to_list (metrics self))) as [Hall|Hex'].
  - rewrite (get_state_loop_emitted _ _ Hall).
    split; [|split; [discriminate|reflexivity]].
    split; [discriminate|]. intros (k & s & Hk & Hs).
    apply elem_of_map_to_list in Hk.
    rewrite Forall_forall in Hall. specialize (Hall _ Hk). cbn in Hall. congruence.
  - rewrite (get_state_loop_raises _ _ Hex').
    split; [|split; [by intros e [= <-]|reflexivity]].
    split; [|reflexivity]. intros _.
    apply Exists_exists in Hex' as ([k v] & Hin & Hv).
    apply elem_of_map_to_list in Hin. cbn in Hv.
    destruct v as [|b|n|x|[s|s]]; try discriminate. by exists k, s.
Qed.

(** ** What a flattened mapping holds *)

Lemma map_size_union_le (m1 m2 : gmap string pyval) :
  (size (m1 ∪ m2) <= size m1 + size m2)%nat.
Proof.
  rewrite <- !size_dom, dom_union_L, size_union_alt.
  apply Nat.add_le_mono_l, subseteq_size, subseteq_difference_l. reflexivity.
Qed.

(** The loop adds, turn by turn, what each turn adds. *)
Lemma flatten_loop_bound step (items : list (pyval * json))
    (flattened m : gmap string pyval) :
  Forall (fun kc => forall fl fl',
            step kc.1 kc.2 fl = Ok fl' ->
            (size fl' <= size fl + length (atoms_of kc.2))%nat
            /\ (forall k v, fl' !! k = Some v ->
                  fl !! k = Some v \/ In v (atoms_of kc.2))) items ->
  flatten_loop step items flattened = Ok m ->
  (size m <= size flattened + length (List.flat_map (fun kc => atoms_of kc.2) items))%nat
  /\ (forall k v, m !! k = Some v ->
        flattened !! k = Some v
        \/ In v (List.flat_map (fun kc => atoms_of kc.2) items)).
Proof.
  intros H. revert flattened.
  induction H as [|[key child] rest Hstep _ IH]; intros flattened Hloop.
  - injection Hloop as <-. split; [cbn; lia|]. intros k v Hk. by left.
  - rewrite flatten_loop_cons in Hloop.
    destruct (step key child flattened) as [fl'|e] eqn:Hs; [|discriminate].
    rewrite bind_Ok in Hloop. destruct (IH fl' Hloop) as [IHsize IHval].
    destruct (Hstep flattened fl' Hs) as [Hsize Hval]. cbn [fst snd] in *.
    cbn [List.flat_map fst snd]. rewrite length_app. split; [lia|].
    intros k v Hk. destruct (IHval k v Hk) as [Hfl|Hin].
    + destruct (Hval k v Hfl) as [?|?]; [by left|right].
      apply in_or_app. by left.
    + right. apply in_or_app. by right.
Qed.

Section Entries.
Variable self : JsonLogster.
Variable separator : string.
Variable cb : option key_filter_t.

Lemma flatten_step_bound parent_keys key child fl fl' :
  (is_container child = true -> entries_within self separator cb child) ->
  flatten_step self separator cb parent_keys key child fl = Ok fl' ->
  (size fl' <= size fl + length (atoms_of child))%nat
  /\ (forall k v, fl' !! k = Some v -> fl !! k = Some v \/ In v (atoms_of child)).
Proof.
  intros Hchild. rewrite flatten_step_eq. unfold flatten_item.
  destruct (visit_key self cb key) as [[t|]|e]; [|intros [= <-]|discriminate].
  - rewrite bind_Ok. destruct (py_str t) as [seg|e].
    + assert (Hcont :
                is_container child = true ->
                (sub ← flatten_object self child separator cb (parent_keys ++ [seg])%list;
                 Ok (dict_update fl sub)) = Ok fl' ->
                (size fl' <= size fl + length (atoms_of child))%nat
                /\ (forall k v, fl' !! k = Some v ->
                      fl !! k = Some v \/ In v (atoms_of child))).
      { intros Hc.
        destruct (flatten_object self child separator cb (parent_keys ++ [seg])%list)
          as [sub|e] eqn:Hsub; [|discriminate].
        rewrite bind_Ok. intros [= <-].
        destruct (Hchild Hc _ _ Hsub) as [Hsize Hval].
        rewrite dict_update_union. split.
        - pose proof (map_size_union_le sub fl). lia.
        - intros k v Hk. apply lookup_union_Some_raw in Hk as [Hk|[_ Hk]];
            [right; by apply (Hval k)|by left]. }
      destruct child as [v|l|kvs]; [|by apply Hcont..].
      rewrite !bind_Ok. intros [= <-]. cbn [atoms_of length]. split.
      * rewrite map_size_insert. destruct (fl !! _); unfold id; lia.
      * intros k v' Hk. apply lookup_insert_Some in Hk as [[_ <-]|[_ Hk]];
          [right; by left|by left].
    + destruct child; discriminate.
  - split; [lia|]. intros k v Hk. by left.
Qed.

Lemma flatten_object_within node :
  is_container node = true -> entries_within self separator cb node.
Proof.
  induction node as [v|l IH|kvs IH] using json_ind'; intros Hc; [discriminate|..];
    intros parent_keys m; rewrite flatten_object_unfold; cbn [iter_items];
    rewrite bind_Ok; intros Hloop.
  - assert (Hitems : forall i,
              List.flat_map (fun kc : pyval * json => atoms_of kc.2) (enumerate_from i l)
              = List.flat_map atoms_of l).
    { clear. induction l as [|x l IHl]; intros i; [reflexivity|].
      cbn [enumerate_from List.flat_map snd]. by rewrite IHl. }
    apply flatten_loop_bound in Hloop.
    + rewrite map_size_empty, Hitems in Hloop. destruct Hloop as [Hsize Hval].
      split; [exact Hsize|]. intros k v Hk.
      by destruct (Hval k v Hk) as [Hk'|Hin]; [rewrite lookup_empty in Hk'|].
    + clear Hloop Hitems Hc. generalize 0.
      induction IH as [|child rest Hchild _ IHrest]; intros i; constructor; [|apply IHrest].
      intros fl fl'. cbn [fst snd]. by apply flatten_step_bound.
  - assert (Hitems :
              List.flat_map (fun kc : pyval * json => atoms_of kc.2)
                (map (fun kv : string * json => (PyUnicode kv.1, kv.2)) kvs)
              = List.flat_map (fun kv => atoms_of kv.2) kvs).
    { clear. induction kvs as [|x l IHl]; [reflexivity|].
      cbn [map List.flat_map snd]. by rewrite IHl. }
    apply flatten_loop_bound in Hloop.
    + rewrite map_size_empty, Hitems in Hloop. destruct Hloop as [Hsize Hval].
      split; [exact Hsize|]. intros k v Hk.
      by destruct (Hval k v Hk) as [Hk'|Hin]; [rewrite lookup_empty in Hk'|].
    + clear Hloop Hitems Hc.
      induction IH as [|[k child] rest Hchild _ IHrest]; constructor; [|apply IHrest].
      intros fl fl'. cbn [fst snd]. by apply flatten_step_bound.
Qed.

End Entries.

(** Whatever the key filter and the separators, a list or a dict that
    flattens gives a mapping with at most one entry per atom of the
    document, and every value in it is an atom of the document: the filter
    can rename, merge or drop entries, but no value is made up and none is
    stored twice under two keys for one atom. *)
Theorem flatten_object_values_are_atoms (self : JsonLogster) (node : json)
    (separator : string) (cb : option key_filter_t) (parent_keys : list string)
    (m : gmap string pyval) :
  is_container node = true ->
  flatten_object self node separator cb parent_keys = Ok m ->
  (size m <= length (atoms_of node))%nat
  /\ (forall k v, m !! k = Some v -> In v (atoms_of node)).
Proof.
  intros Hc Hflat. by apply (flatten_object_within self separator cb node Hc parent_keys).
Qed.

Lemma flatten_object_values_are_atoms_witness :
  (size ({["ok" := PyInt 2]} : gmap string pyval) <= length (atoms_of doc_secret))%nat.
Proof.
  refine (proj1 (flatten_object_values_are_atoms (init ".") doc_secret "."
                   (Some skip_secret) [] {["ok" := PyInt 2]} eq_refl _)).
  vm_compute. reflexivity.
Defined.

(** ** Arrays and bare scalars *)

Lemma objects_only_ascii_array_free (node : json) :
  ascii_keys node = true -> holds_array node = false -> objects_only node = true.
Proof.
  induction node as [v|l IH|kvs IH] using json_ind'; intros Hascii Harr.
  - reflexivity.
  - by destruct l.
  - cbn [ascii_keys holds_array] in Hascii, Harr.
    induction IH as [|[k child] rest Hchild _ IHrest]; [reflexivity|].
    cbn [forallb existsb fst snd] in Hascii, Harr, Hchild.
    apply andb_prop in Hascii as [[Hk Hc]%andb_prop Hrest].
    apply orb_false_elim in Harr as [Harr Harr'].
    change (objects_only (JDict ((k, child) :: rest)))
      with (ascii_only k && objects_only child && objects_only (JDict rest)).
    by rewrite Hk, (Hchild Hc Harr), (IHrest Hrest Harr').
Qed.

Section Arrays.
Variable self : JsonLogster.
Variable separator : string.
Variable cb : option key_filter_t.
Hypothesis Hsep : ascii_only (key_separator self) = true.
Hypothesis Hcb : keeps_keys cb.

Lemma flatten_list_raises child rest parent_keys :
  flatten_object self (JList (child :: rest)) separator cb parent_keys
  = Raise AttributeError.
Proof.
  rewrite flatten_object_unfold. cbn [iter_items enumerate_from].
  rewrite bind_Ok, flatten_loop_cons, flatten_step_eq.
  unfold flatten_item, visit_key.
  assert (Hf : match cb with Some f => f (PyInt 0) | None => Ok (PyInt 0) end
               = Ok (PyInt 0)).
  { destruct cb as [f|] eqn:E; [|reflexivity]. by apply Hcb. }
  by rewrite Hf.
Qed.

Lemma flatten_object_array_raises node :
  ascii_keys node = true ->
  holds_array node = true ->
  forall parent_keys,
    flatten_object self node separator cb parent_keys = Raise AttributeError.
Proof.
  induction node as [v|l IH|kvs IH] using json_ind'; intros Hascii Harr parent_keys.
  - discriminate.
  - destruct l as [|child rest]; [discriminate|]. apply flatten_list_raises.
  - rewrite flatten_object_unfold. cbn [iter_items]. rewrite bind_Ok.
    generalize (∅ : gmap string pyval).
    cbn [ascii_keys holds_array] in Hascii, Harr.
    induction IH as [|[k child] rest Hchild _ IHrest]; intros flattened;
      [discriminate|].
    cbn [forallb existsb fst snd] in Hascii, Harr.
    apply andb_prop in Hascii as [[Hk Hc]%andb_prop Hrest].
    cbn [map fst snd]. rewrite flatten_loop_cons, flatten_step_eq.
    unfold flatten_item.
    rewrite (visit_key_unicode self cb Hsep Hcb k), bind_Ok.
    assert (Hstr : py_str (Unicode (replace_char slash (key_separator self) k))
                   = Ok (replace_char slash (key_separator self) k)).
    { cbn. by rewrite (ascii_only_replace_char _ _ Hsep Hk). }
    destruct (holds_array child) eqn:Hchild_arr.
    + cbn [snd] in Hchild.
      destruct child as [v|l|kvs']; [discriminate|..];
        by rewrite Hstr, bind_Ok, (Hchild Hc Hchild_arr).
    + cbn [orb] in Harr.
      pose proof (flatten_object_leaves self separator cb Hsep Hcb child
                    (objects_only_ascii_array_free child Hc Hchild_arr)) as Hleaves.
      destruct child as [v|l|kvs']; rewrite Hstr, !bind_Ok;
        [|rewrite Hleaves, bind_Ok..]; by apply IHrest.
Qed.

End Arrays.

(** Arrays: under the identity key filter (or without a callback), with
    an ASCII [key_separator] and ASCII object keys, a document that holds
    an array with at least one element, at any depth, does not flatten:
    [flatten_object] raises [AttributeError], whatever else the document
    holds, and [parse_line] on such a line raises it and accumulates
    nothing of the line. *)
Theorem flatten_object_array_raises_AttributeError (json_loads : decoder)
    (self : JsonLogster) (line : string) (node : json) :
  ascii_only (key_separator self) = true ->
  (forall key, key_filter self key = Ok key) ->
  ascii_keys node = true ->
  holds_array node = true ->
  (forall separator cb parent_keys,
     keeps_keys cb ->
     flatten_object self node separator cb parent_keys = Raise AttributeError)
  /\ (json_loads line = inl node ->
      parse_line json_loads self line = (self, Raise AttributeError)).
Proof.
  intros Hsep Hfilter Hascii Harr. split.
  - intros separator cb parent_keys Hcb.
    by apply flatten_object_array_raises.
  - intros Hloads. apply (parse_line_flatten_error json_loads self line node _ Hloads).
    apply flatten_object_array_raises; [exact Hsep| |exact Hascii|exact Harr].
    intros f [= <-]. exact Hfilter.
Qed.

Lemma flatten_object_array_raises_AttributeError_witness :
  parse_line loads_fragment (with_metrics (init ".") {["a" := PyInt 7]}) line_nested
  = (with_metrics (init ".") {["a" := PyInt 7]}, Raise AttributeError).
Proof.
  refine (proj2 (flatten_object_array_raises_AttributeError loads_fragment
                   (with_metrics (init ".") {["a" := PyInt 7]}) line_nested doc_nested
                   eq_refl (fun key => eq_refl) eq_refl eq_refl) _).
  vm_compute. reflexivity.
Defined.

(** A bare scalar at top level: a line that decodes to a number, a
    boolean or [null] makes [parse_line] raise [TypeError] ([enumerate] of
    a value that is not iterable); a line that decodes to a text raises
    [AttributeError] under the default key filter, unless the text is
    empty, in which case the call succeeds; in every case the accumulated
    mapping is the one before the call. *)
Theorem parse_line_scalar (json_loads : decoder) (self : JsonLogster)
    (line : string) (v : pyval) :
  json_loads line = inl (JAtom v) ->
  key_filter self = default_key_filter ->
  metrics (parse_line json_loads self line).1 = metrics self
  /\ (parse_line json_loads self line).2
     = match v with
       | PyText (Bytes EmptyString) | PyText (Unicode EmptyString) => Ok tt
       | PyText _ => Raise AttributeError
       | _ => Raise TypeError
       end.
Proof.
  intros Hloads Hfilter. unfold parse_line. rewrite Hloads, Hfilter.
  destruct v as [|b|n|x|[[|c s]|[|c s]]]; cbn [flatten_object fst snd metrics];
    split; reflexivity.
Qed.

Lemma parse_line_scalar_witness :
  (parse_line loads_fragment (init ".") "42").2 = Raise TypeError.
Proof.
  refine (proj2 (parse_line_scalar loads_fragment (init ".") "42" (PyInt 42) _ eq_refl)).
  vm_compute. reflexivity.
Defined.

(** ** The option string *)

Lemma split_space_cons (s : string) :
  exists piece pieces, split_space s = piece :: pieces.
Proof.
  destruct s as [|c rest]; [by exists EmptyString, []|].
  cbn [split_space]. destruct (Ascii.eqb c " "); [by eexists _, _|].
  destruct (split_space rest); by eexists _, _.
Qed.

Lemma concat_cons_cons (sep x y : string) (l : list string) :
  String.concat sep (x :: y :: l) = x ++ sep ++ String.concat sep (y :: l).
Proof. reflexivity. Qed.

Lemma concat_split_space (s : string) : String.concat " " (split_space s) = s.
Proof.
  induction s as [|c rest IH]; [reflexivity|].
  cbn [split_space]. destruct (split_space_cons rest) as (piece & pieces & E).
  rewrite E in *. destruct (Ascii.eqb c " ") eqn:Hc.
  - apply Ascii.eqb_eq in Hc as ->. by rewrite concat_cons_cons, IH.
  - destruct pieces as [|piece' pieces].
    + cbn in *. by rewrite IH.
    + rewrite concat_cons_cons in IH. rewrite concat_cons_cons.
      change (String c (piece ++ " " ++ String.concat " " (piece' :: pieces))
              = String c rest).
      by rewrite IH.
Qed.

Lemma split_space_space_free (s : string) :
  Forall (fun piece => space_free piece = true) (split_space s).
Proof.
  induction s as [|c rest IH]; [by repeat constructor|].
  cbn [split_space]. destruct (Ascii.eqb c " ") eqn:Hc; [by constructor|].
  destruct (split_space rest) as [|piece pieces].
  - repeat constructor. cbn. by rewrite Hc.
  - inversion IH as [|? ? Hp Hps]; subst. constructor; [|exact Hps].
    cbn. by rewrite Hc, Hp.
Qed.

Lemma split_space_app (s1 s2 : string) :
  space_free s1 = true ->
  split_space (s1 ++ " " ++ s2) = s1 :: split_space s2.
Proof.
  induction s1 as [|c s1 IH]; intros Hfree; [reflexivity|].
  cbn [space_free] in Hfree. apply andb_prop in Hfree as [Hc Hs1].
  change (split_space (String c (s1 ++ " " ++ s2)) = String c s1 :: split_space s2).
  cbn [split_space]. apply negb_true_iff in Hc. by rewrite Hc, (IH Hs1).
Qed.

(** The constructor: the parser starts with an empty mapping, the default
    key filter and the separator that the option parser returns for the
    arguments [option_string.split(' ')].  These arguments hold no space
    and, joined by single spaces, give the option string back; there is
    none when the option string is [None] or empty; and since the string
    is cut at every single space, the text after the first space is cut
    on its own, so that two spaces in a row hand an empty argument to the
    option parser. *)
Theorem init_options_round_trip (parse_args : list string -> result string)
    (option_string : option string) :
  __init__ parse_args option_string
  = (sep ← parse_args (init_options option_string); Ok (init sep))
  /\ Forall (fun piece => space_free piece = true) (init_options option_string)
  /\ (forall s, option_string = Some s ->
        String.concat " " (init_options option_string) = s)
  /\ (init_options option_string = []
      <-> option_string = None \/ option_string = Some EmptyString)
  /\ (forall s1 s2, space_free s1 = true ->
        init_options (Some (s1 ++ " " ++ s2)) = s1 :: split_space s2).
Proof.
  split; [reflexivity|]. split; [|split; [|split]].
  - destruct option_string as [[|c s]|]; [constructor| |constructor].
    apply split_space_space_free.
  - intros s ->. destruct s as [|c s]; [reflexivity|]. apply concat_split_space.
  - destruct option_string as [[|c s]|]; split; try done; try by auto.
    + cbn [init_options]. destruct (split_space_cons (String c s)) as (? & ? & ->).
      discriminate.
    + by intros [|].
  - intros s1 s2 Hfree. pose proof (split_space_app s1 s2 Hfree) as E.
    destruct s1; exact E.
Qed.

(** ** One entry per leaf *)

Lemma split_on_free (c : ascii) (s : string) :
  char_free c s = true -> split_on c s = [s].
Proof.
  induction s as [|c' s IH]; [reflexivity|].
  cbn [char_free split_on]. intros [Hc Hs]%andb_prop.
  apply negb_true_iff in Hc. by rewrite Hc, (IH Hs).
Qed.

Lemma split_on_app (c : ascii) (s1 s2 : string) :
  char_free c s1 = true ->
  split_on c (s1 ++ String c s2) = s1 :: split_on c s2.
Proof.
  induction s1 as [|c' s1 IH]; intros Hfree.
  - change (split_on c (String c s2) = EmptyString :: split_on c s2).
    cbn [split_on]. by rewrite Ascii.eqb_refl.
  - cbn [char_free] in Hfree. apply andb_prop in Hfree as [Hc Hs1].
    change (split_on c (String c' (s1 ++ String c s2)) = String c' s1 :: split_on c s2).
    cbn [split_on]. apply negb_true_iff in Hc. by rewrite Hc, (IH Hs1).
Qed.

(** Joining with a one-character separator is undone by splitting, when no
    segment holds the character. *)
Lemma split_on_concat (c : ascii) (x : string) (l : list string) :
  Forall (fun s => char_free c s = true) (x :: l) ->
  split_on c (String.concat (String c EmptyString) (x :: l)) = x :: l.
Proof.
  revert x. induction l as [|y l IH]; intros x Hfree.
  - apply split_on_free. by inversion Hfree.
  - inversion Hfree as [|? ? Hx Hrest]; subst.
    rewrite concat_cons_cons.
    change (String c EmptyString ++ String.concat (String c EmptyString) (y :: l))
      with (String c (String.concat (String c EmptyString) (y :: l))).
    by rewrite (split_on_app c x _ Hx), (IH y Hrest).
Qed.

Lemma concat_char_inj (c : ascii) (l1 l2 : list string) :
  l1 <> [] -> l2 <> [] ->
  Forall (fun s => char_free c s = true) l1 ->
  Forall (fun s => char_free c s = true) l2 ->
  String.concat (String c EmptyString) l1 = String.concat (String c EmptyString) l2 ->
  l1 = l2.
Proof.
  intros H1 H2 F1 F2 E.
  destruct l1 as [|x1 l1]; [done|]. destruct l2 as [|x2 l2]; [done|].
  by rewrite <- (split_on_concat c x1 l1 F1), <- (split_on_concat c x2 l2 F2), E.
Qed.

Lemma replace_char_slash_free (sep s : string) :
  slash_free s = true -> replace_char slash sep s = s.
Proof.
  induction s as [|c s IH]; [reflexivity|].
  cbn [slash_free replace_char]. intros [Hc Hs]%andb_prop.
  apply negb_true_iff in Hc. by rewrite Hc, (IH Hs).
Qed.

Lemma leaves_cons key_sep separator path k child rest :
  leaves key_sep separator path (JDict ((k, child) :: rest))
  = (match child with
     | JAtom v => [(String.concat separator
                      (path ++ [replace_char slash key_sep k])%list, v)]
     | _ => leaves key_sep separator (path ++ [replace_char slash key_sep k])%list child
     end ++ leaves key_sep separator path (JDict rest))%list.
Proof. reflexivity. Qed.

Lemma leaf_paths_cons key_sep path k child rest :
  leaf_paths key_sep path (JDict ((k, child) :: rest))
  = (match child with
     | JAtom v => [(path ++ [replace_char slash key_sep k])%list]
     | _ => leaf_paths key_sep (path ++ [replace_char slash key_sep k])%list child
     end ++ leaf_paths key_sep path (JDict rest))%list.
Proof. reflexivity. Qed.

Lemma plain_keys_cons c k child rest :
  plain_keys c (JDict ((k, child) :: rest))
  = ascii_only k && slash_free k && char_free c k
    && negb (existsb (String.eqb k) (map fst rest))
    && plain_keys c child && plain_keys c (JDict rest).
Proof. reflexivity. Qed.

(** The flat keys of the leaves are their paths, joined. *)
Lemma leaves_keys key_sep separator node : forall path,
  map fst (leaves key_sep separator path node)
  = map (String.concat separator) (leaf_paths key_sep path node).
Proof.
  induction node as [v|l IH|kvs IH] using json_ind'; intros path; [reflexivity..|].
  induction IH as [|[k child] rest Hchild _ IHrest]; [reflexivity|].
  rewrite leaves_cons, leaf_paths_cons, !map_app, IHrest. f_equal.
  destruct child as [v|l|kvs']; [reflexivity|apply Hchild..].
Qed.

Lemma leaves_length key_sep separator c node :
  plain_keys c node = true ->
  is_container node = true ->
  forall path,
    length (leaves key_sep separator path node) = length (atoms_of node).
Proof.
  induction node as [v|l IH|kvs IH] using json_ind'; intros Hplain Hc path.
  - discriminate.
  - by destruct l.
  - clear Hc. induction IH as [|[k child] rest Hchild _ IHrest]; [reflexivity|].
    rewrite plain_keys_cons in Hplain.
    apply andb_prop in Hplain as [[_ Hchild_plain]%andb_prop Hrest].
    rewrite leaves_cons. cbn [atoms_of List.flat_map snd].
    rewrite !length_app. f_equal; [|by apply IHrest].
    cbn [snd] in Hchild.
    destruct child as [v|l|kvs']; [reflexivity|by apply Hchild..].
Qed.

Lemma plain_keys_objects_only c node :
  plain_keys c node = true -> objects_only node = true.
Proof.
  induction node as [v|l IH|kvs IH] using json_ind'; intros Hplain;
    [reflexivity|exact Hplain|].
  induction IH as [|[k child] rest Hchild _ IHrest]; [reflexivity|].
  rewrite plain_keys_cons in Hplain.
  apply andb_prop in Hplain as [[[[[Hk _]%andb_prop _]%andb_prop _]%andb_prop
                                   Hc]%andb_prop Hrest].
  change (objects_only (JDict ((k, child) :: rest)))
    with (ascii_only k && objects_only child && objects_only (JDict rest)).
  cbn [snd] in Hchild. by rewrite Hk, (Hchild Hc), (IHrest Hrest).
Qed.

(** The paths of the leaves are pairwise different, each one the parent
    path followed by a key of the object and by keys below it. *)
Lemma leaf_paths_distinct (c : ascii) (key_sep : string) (node : json) :
  forall path,
    plain_keys c node = true ->
    Forall (fun s => char_free c s = true) path ->
    NoDup (leaf_paths key_sep path node)
    /\ (forall q, q ∈ leaf_paths key_sep path node ->
          exists k r, q = (path ++ k :: r)%list
                      /\ Forall (fun s => char_free c s = true) (k :: r)
                      /\ match node with
                         | JDict kvs => k ∈ map fst kvs
                         | _ => True
                         end).
Proof.
  induction node as [v|l IH|kvs IH] using json_ind'; intros path Hplain Hpath;
    [split; [constructor|intros q Hq; by apply elem_of_nil in Hq]..|].
  induction IH as [|[k child] rest Hchild _ IHrest].
  { split; [constructor|]. intros q Hq. by apply elem_of_nil in Hq. }
  rewrite plain_keys_cons in Hplain.
  apply andb_prop in Hplain as [[[[[Hk_ascii Hk_slash]%andb_prop
                                     Hk_free]%andb_prop
                                    Hk_fresh]%andb_prop Hc]%andb_prop Hrest].
  destruct (IHrest Hrest) as [NDrest Prest]. cbn [snd] in Hchild.
  rewrite leaf_paths_cons, (replace_char_slash_free key_sep k Hk_slash).
  assert (Hfresh : k ∉ map fst rest).
  { intros Hin. apply list_elem_of_In in Hin.
    apply negb_true_iff in Hk_fresh.
    assert (existsb (String.eqb k) (map fst rest) = true); [|congruence].
    apply existsb_exists. exists k. split; [exact Hin|apply String.eqb_refl]. }
  assert (Hhere :
    NoDup (match child with
           | JAtom _ => [(path ++ [k])%list]
           | _ => leaf_paths key_sep (path ++ [k])%list child
           end)
    /\ (forall q,
          q ∈ match child with
              | JAtom _ => [(path ++ [k])%list]
              | _ => leaf_paths key_sep (path ++ [k])%list child
              end ->
          exists r, q = (path ++ k :: r)%list
                    /\ Forall (fun s => char_free c s = true) (k :: r))).
  { assert (Hcont :
      NoDup (leaf_paths key_sep (path ++ [k])%list child)
      /\ (forall q, q ∈ leaf_paths key_sep (path ++ [k])%list child ->
            exists r, q = (path ++ k :: r)%list
                      /\ Forall (fun s => char_free c s = true) (k :: r))).
    { destruct (Hchild (path ++ [k])%list Hc) as [ND P].
      { apply Forall_app. split; [exact Hpath|by constructor]. }
      split; [exact ND|]. intros q Hq.
      destruct (P q Hq) as (k2 & r2 & -> & Hfree & _).
      exists (k2 :: r2). split; [by rewrite <- app_assoc|by constructor]. }
    destruct child as [v|l|kvs']; [|exact Hcont..].
    split; [apply NoDup_singleton|]. intros q ->%list_elem_of_singleton.
    exists []. split; [reflexivity|by repeat constructor]. }
  destruct Hhere as [NDhere Phere]. split.
  - apply NoDup_app. split; [exact NDhere|]. split; [|exact NDrest].
    intros q Hq Hq'. destruct (Phere q Hq) as (r & -> & _).
    destruct (Prest _ Hq') as (k' & r' & E & _ & Hk').
    apply app_inv_head in E. injection E as -> _. by apply Hfresh.
  - intros q [Hq|Hq]%elem_of_app.
    + destruct (Phere q Hq) as (r & -> & Hfree). exists k, r.
      split; [reflexivity|]. split; [exact Hfree|]. cbn [map fst]. left.
    + destruct (Prest q Hq) as (k' & r' & -> & Hfree & Hk'). exists k', r'.
      split; [reflexivity|]. split; [exact Hfree|]. cbn [map fst]. by right.
Qed.

(** One entry per leaf: with the identity key filter (or no callback), an
    ASCII [key_separator] and a one-character separator [c], an object
    whose keys are ASCII and hold neither '/' nor [c], nested to any depth,
    flattens to a mapping with exactly one entry per atom of the document:
    the flat keys of its leaves are pairwise different, and the mapping
    holds exactly the leaves. *)
Theorem flatten_object_one_entry_per_leaf (self : JsonLogster) (c : ascii)
    (cb : option key_filter_t) (kvs : list (string * json)) :
  ascii_only (key_separator self) = true ->
  keeps_keys cb ->
  plain_keys c (JDict kvs) = true ->
  let separator := String c EmptyString in
  let flat := leaves (key_separator self) separator [] (JDict kvs) in
  flatten_object self (JDict kvs) separator cb [] = Ok (last_wins flat)
  /\ NoDup (map fst flat)
  /\ size (last_wins flat) = length (atoms_of (JDict kvs))
  /\ (forall k v, last_wins flat !! k = Some v <-> (k, v) ∈ flat).
Proof.
  intros Hsep Hcb Hplain separator flat.
  assert (Hnodup : NoDup (map fst flat)).
  { unfold flat. rewrite leaves_keys.
    destruct (leaf_paths_distinct c (key_separator self) (JDict kvs) []
                Hplain (List.Forall_nil _)) as [ND P].
    apply NoDup_fmap_2_strong; [|exact ND].
    intros q1 q2 Hq1 Hq2 E.
    destruct (P q1 Hq1) as (k1 & r1 & -> & F1 & _).
    destruct (P q2 Hq2) as (k2 & r2 & -> & F2 & _).
    by apply (concat_char_inj c). }
  assert (Hnodup' : NoDup (map fst (rev flat))).
  { rewrite map_rev. apply NoDup_ListNoDup, NoDup_rev. by apply NoDup_ListNoDup. }
  split; [|split; [exact Hnodup|split]].
  - apply (flatten_object_leaves self separator cb Hsep Hcb (JDict kvs)
             (plain_keys_objects_only c _ Hplain)).
  - unfold last_wins. rewrite (map_size_list_to_map _ Hnodup'), length_rev.
    by apply (leaves_length _ _ c).
  - intros k v. unfold last_wins.
    rewrite <- (elem_of_list_to_map _ _ _ Hnodup'), !list_elem_of_In.
    symmetry. apply in_rev.
Qed.

Lemma flatten_object_one_entry_per_leaf_witness :
  size (last_wins (leaves "." "." []
          (JDict [("a", JDict [("b", JAtom (PyInt 1)); ("c", JAtom (PyInt 2))]);
                  ("d", JAtom PyNone)])))
  = 3%nat.
Proof.
  refine (proj1 (proj2 (proj2
            (flatten_object_one_entry_per_leaf (init ".") "."%char
               (Some default_key_filter)
               [("a", JDict [("b", JAtom (PyInt 1)); ("c", JAtom (PyInt 2))]);
                ("d", JAtom PyNone)] eq_refl _ eq_refl)))).
  intros f [= <-] key. reflexivity.
Defined.

(** ** From a line to its records *)

(** One collection cycle on one line: a fresh parser that parses a line
    decoding to an object (objects, atoms and empty arrays below it, ASCII
    keys and text) accumulates the last-wins mapping of its leaves, and
    [get_state] then returns one record per accumulated entry, at most one
    per atom of the document, typed by the kind of the leaf. *)
Theorem parse_line_then_get_state (json_loads : decoder) (sep line : string)
    (kvs : list (string * json)) (d : pyval) :
  ascii_only sep = true ->
  json_loads line = inl (JDict kvs) ->
  objects_only (JDict kvs) = true ->
  Forall (fun v => ascii_value v = true) (atoms_of (JDict kvs)) ->
  let flat := last_wins (leaves sep sep [] (JDict kvs)) in
  parse_line json_loads (init sep) line = (with_metrics (init sep) flat, Ok tt)
  /\ (get_state (parse_line json_loads (init sep) line).1 d).2
     = Ok (emitted_record <$> map_to_list flat)
  /\ (length (emitted_record <$> map_to_list flat)
      <= length (atoms_of (JDict kvs)))%nat.
Proof.
  intros Hsep Hloads Hobj Hascii flat.
  assert (Hcb : keeps_keys (Some default_key_filter)).
  { intros f [= <-] key. reflexivity. }
  assert (Hflat : flatten_object (init sep) (JDict kvs) sep
                    (Some default_key_filter) [] = Ok flat).
  { apply (flatten_object_leaves (init sep) sep (Some default_key_filter)
             Hsep Hcb (JDict kvs) Hobj). }
  destruct (flatten_object_within (init sep) sep (Some default_key_filter)
              (JDict kvs) eq_refl [] flat Hflat) as [Hsize Hval].
  assert (Hparse : parse_line json_loads (init sep) line
                   = (with_metrics (init sep) flat, Ok tt)).
  { rewrite (parse_line_ok json_loads (init sep) line (JDict kvs) flat Hloads Hflat).
    cbn [init metrics]. by rewrite dict_update_union, (right_id_L ∅ (∪)). }
  split; [exact Hparse|]. rewrite Hparse. cbn [fst]. split.
  - unfold get_state. cbn [snd with_metrics metrics].
    rewrite get_state_loop_emitted; [reflexivity|].
    apply Forall_forall. intros [k v] Hin. cbn [snd].
    apply elem_of_map_to_list in Hin. rewrite List.Forall_forall in Hascii.
    apply Hascii. by apply (Hval k).
  - by rewrite length_fmap, length_map_to_list.
Qed.

Lemma parse_line_then_get_state_witness :
  (get_state (parse_line loads_fragment (init ".") line_a1b2).1 (PyInt 60)).2
  = Ok (emitted_record <$> map_to_list (last_wins (leaves "." "." [] doc_a1b2))).
Proof.
  refine (proj1 (proj2 (parse_line_then_get_state loads_fragment "." line_a1b2
                          [("a", JAtom (PyInt 1)); ("b", JAtom (PyInt 2))] (PyInt 60)
                          eq_refl _ eq_refl _))).
  - vm_compute. reflexivity.
  - repeat constructor.
Defined.

(** ** When the flattening succeeds *)

Lemma ascii_only_replace_char_false (sep s : string) :
  ascii_only s = false -> ascii_only (replace_char slash sep s) = false.
Proof.
  induction s as [|c s IH]; [discriminate|].
  cbn [ascii_only replace_char]. intros H.
  destruct (Ascii.eqb c slash) eqn:Hc.
  - apply Ascii.eqb_eq in Hc as ->. cbn in H.
    rewrite ascii_only_app, (IH H). apply andb_false_r.
  - cbn [ascii_only]. apply andb_false_iff in H as [->|H]; [reflexivity|].
    rewrite (IH H). apply andb_false_r.
Qed.

Section Outcomes.
Variable self : JsonLogster.
Variable separator : string.
Variable cb : option key_filter_t.
Hypothesis Hsep : ascii_only (key_separator self) = true.
Hypothesis Hcb : keeps_keys cb.

Lemma flatten_object_not_objects_only node :
  objects_only node = false ->
  forall parent_keys,
    flatten_object self node separator cb parent_keys = Raise AttributeError
    \/ flatten_object self node separator cb parent_keys = Raise UnicodeEncodeError.
Proof.
  induction node as [v|l IH|kvs IH] using json_ind'; intros Hobj parent_keys.
  - discriminate.
  - destruct l as [|child rest]; [discriminate|]. left.
    by apply flatten_list_raises.
  - rewrite flatten_object_unfold. cbn [iter_items]. rewrite bind_Ok.
    generalize (∅ : gmap string pyval).
    induction IH as [|[k child] rest Hchild _ IHrest]; intros flattened;
      [discriminate|].
    change (objects_only (JDict ((k, child) :: rest)))
      with (ascii_only k && objects_only child && objects_only (JDict rest)) in Hobj.
    cbn [map fst snd] in *. rewrite flatten_loop_cons, flatten_step_eq.
    unfold flatten_item. rewrite (visit_key_unicode self cb Hsep Hcb k), bind_Ok.
    destruct (ascii_only k) eqn:Hk.
    + assert (Hstr : py_str (Unicode (replace_char slash (key_separator self) k))
                     = Ok (replace_char slash (key_separator self) k)).
      { cbn. by rewrite (ascii_only_replace_char _ _ Hsep Hk). }
      destruct (objects_only child) eqn:Hc.
      * pose proof (flatten_object_leaves self separator cb Hsep Hcb child Hc) as Hl.
        destruct child as [v|l|kvs']; rewrite Hstr, !bind_Ok;
          [|rewrite Hl, bind_Ok..]; by apply IHrest.
      * destruct child as [v|l|kvs']; [discriminate|..]; rewrite Hstr, bind_Ok;
          by destruct (Hchild eq_refl (parent_keys ++
                         [replace_char slash (key_separator self) k])%list)
            as [->| ->]; [left|right].
    + right.
      assert (Hstr : py_str (Unicode (replace_char slash (key_separator self) k))
                     = Raise UnicodeEncodeError).
      { cbn. by rewrite (ascii_only_replace_char_false _ _ Hk). }
      destruct child; by rewrite Hstr.
Qed.

End Outcomes.

(** Under the identity key filter (or without a callback) and an ASCII
    [key_separator], an object flattens if and only if it is made of
    objects with ASCII keys, atoms and empty arrays; otherwise
    [flatten_object] raises, and what it raises is [AttributeError] (an
    array with an element) or [UnicodeEncodeError] (a key that is not
    ASCII), whichever the loop meets first. *)
Theorem flatten_object_succeeds_iff_objects_only (self : JsonLogster)
    (separator : string) (cb : option key_filter_t)
    (parent_keys : list string) (kvs : list (string * json)) :
  ascii_only (key_separator self) = true ->
  keeps_keys cb ->
  ((exists m, flatten_object self (JDict kvs) separator cb parent_keys = Ok m)
   <-> objects_only (JDict kvs) = true)
  /\ (forall e,
        flatten_object self (JDict kvs) separator cb parent_keys = Raise e ->
        e = AttributeError \/ e = UnicodeEncodeError).
Proof.
  intros Hsep Hcb.
  destruct (objects_only (JDict kvs)) eqn:Hobj.
  - pose proof (flatten_object_leaves self separator cb Hsep Hcb (JDict kvs) Hobj
                  parent_keys) as Hflat.
    rewrite Hflat. split; [|discriminate]. split; [reflexivity|]. by eexists.
  - destruct (flatten_object_not_objects_only self separator cb Hsep Hcb
                (JDict kvs) Hobj parent_keys) as [-> | ->].
    + split; [|intros e [= <-]; by left]. split; [by intros [m ?]|discriminate].
    + split; [|intros e [= <-]; by right]. split; [by intros [m ?]|discriminate].
Qed.

Lemma flatten_object_succeeds_iff_objects_only_witness :
  (exists m, flatten_object (init ".") doc_objects "." (Some default_key_filter) []
             = Ok m)
  <-> objects_only doc_objects = true.
Proof.
  refine (proj1 (flatten_object_succeeds_iff_objects_only (init ".") "."
                   (Some default_key_filter) [] _ eq_refl _)).
  intros f [= <-] key. reflexivity.
Defined.

(** ** Arrays under a key filter that returns text *)

Lemma slash_free_decimal (n : Z) : slash_free (decimal n) = true.
Proof.
  assert (Hu : forall d, slash_free (NilEmpty.string_of_uint d) = true).
  { induction d; cbn; auto. }
  assert (Hz : forall d, slash_free (NilZero.string_of_uint d) = true).
  { intros d. destruct d; try reflexivity; apply Hu. }
  unfold decimal, NilZero.string_of_int. destruct (Z.to_int n); [apply Hz|].
  cbn. apply Hz.
Qed.

Section TextKeys.
Variable self : JsonLogster.
Variable separator : string.
Hypothesis Hsep : ascii_only (key_separator self) = true.

Lemma visit_key_text_keys_index i :
  visit_key self (Some text_keys) (PyInt i) = Ok (Some (Bytes (decimal i))).
Proof.
  unfold visit_key. cbn.
  by rewrite (replace_char_slash_free _ _ (slash_free_decimal i)).
Qed.

Lemma visit_key_text_keys_unicode k :
  visit_key self (Some text_keys) (PyUnicode k)
  = Ok (Some (Unicode (replace_char slash (key_separator self) k))).
Proof. unfold visit_key. cbn. by rewrite Hsep. Qed.

Lemma flatten_object_leaves_indexed node :
  ascii_keys node = true ->
  is_container node = true ->
  forall parent_keys,
    flatten_object self node separator (Some text_keys) parent_keys
    = Ok (last_wins (leaves_indexed (key_separator self) separator parent_keys node)).
Proof.
  induction node as [v|l IH|kvs IH] using json_ind'; intros Hascii Hc parent_keys;
    [discriminate|..]; rewrite flatten_object_unfold; cbn [iter_items leaves_indexed];
    rewrite bind_Ok.
  - assert (Hloop : forall i flattened,
      flatten_loop (flatten_step self separator (Some text_keys) parent_keys)
        (enumerate_from i l) flattened
      = Ok (last_wins
              ((fix go (i : Z) (l : list json) : list (string * pyval) :=
                  match l with
                  | [] => []
                  | child :: rest =>
                      let seg := decimal i in
                      match child with
                      | JAtom v => [(String.concat separator (parent_keys ++ [seg])%list, v)]
                      | _ => leaves_indexed (key_separator self) separator
                               (parent_keys ++ [seg])%list child
                      end ++ go (i + 1) rest
                  end)%list i l) ∪ flattened)).
    { cbn [ascii_keys] in Hascii. clear Hc.
      induction IH as [|child rest Hchild _ IHrest]; intros i flattened.
      - cbn. by rewrite (left_id_L ∅ (∪)).
      - cbn [forallb] in Hascii. apply andb_prop in Hascii as [Ha Hrest].
        cbn [enumerate_from]. rewrite flatten_loop_cons, flatten_step_eq.
        unfold flatten_item. rewrite visit_key_text_keys_index, bind_Ok.
        cbn zeta. rewrite last_wins_app, <- (assoc_L (∪)).
        destruct child as [v|l|kvs']; cbn [py_str]; rewrite !bind_Ok.
        + rewrite (IHrest Hrest). by rewrite last_wins_singleton.
        + rewrite (Hchild Ha eq_refl), !bind_Ok, (IHrest Hrest).
          by rewrite dict_update_union.
        + rewrite (Hchild Ha eq_refl), !bind_Ok, (IHrest Hrest).
          by rewrite dict_update_union. }
    rewrite Hloop. by rewrite (right_id_L ∅ (∪)).
  - assert (Hloop : forall flattened,
      flatten_loop (flatten_step self separator (Some text_keys) parent_keys)
        (map (fun kv => (PyUnicode kv.1, kv.2)) kvs) flattened
      = Ok (last_wins
              ((fix go (kvs : list (string * json)) : list (string * pyval) :=
                  match kvs with
                  | [] => []
                  | (k, child) :: rest =>
                      let seg := replace_char slash (key_separator self) k in
                      match child with
                      | JAtom v => [(String.concat separator (parent_keys ++ [seg])%list, v)]
                      | _ => leaves_indexed (key_separator self) separator
                               (parent_keys ++ [seg])%list child
                      end ++ go rest
                  end)%list kvs) ∪ flattened)).
    { cbn [ascii_keys] in Hascii. clear Hc.
      induction IH as [|[k child] rest Hchild _ IHrest]; intros flattened.
      - cbn. by rewrite (left_id_L ∅ (∪)).
      - cbn [forallb fst snd] in Hascii, Hchild.
        apply andb_prop in Hascii as [[Hk Ha]%andb_prop Hrest].
        cbn [map fst snd]. rewrite flatten_loop_cons, flatten_step_eq.
        unfold flatten_item. rewrite visit_key_text_keys_unicode, bind_Ok.
        cbn zeta. rewrite last_wins_app, <- (assoc_L (∪)).
        assert (Hstr : py_str (Unicode (replace_char slash (key_separator self) k))
                       = Ok (replace_char slash (key_separator self) k)).
        { cbn. by rewrite (ascii_only_replace_char _ _ Hsep Hk). }
        destruct child as [v|l|kvs']; rewrite Hstr, !bind_Ok.
        + rewrite (IHrest Hrest). by rewrite last_wins_singleton.
        + rewrite (Hchild Ha eq_refl), !bind_Ok, (IHrest Hrest).
          by rewrite dict_update_union.
        + rewrite (Hchild Ha eq_refl), !bind_Ok, (IHrest Hrest).
          by rewrite dict_update_union. }
    rewrite Hloop. by rewrite (right_id_L ∅ (∪)).
Qed.

End TextKeys.

(** Arrays under a key filter that returns text: with a key filter that
    turns an array index into its decimal text and keeps the other keys,
    an ASCII [key_separator] and ASCII object keys, every list or dict,
    arrays at any depth included, flattens to the mapping of its leaves,
    each under the path of its object keys and array indices joined by the
    separator, the last leaf winning where two paths give one flat key.
    In particular [{"a":{"b":1,"c":[2,3]}}] with separator ['.'] flattens
    to [{"a.b": 1, "a.c.0": 2, "a.c.1": 3}]. *)
Theorem flatten_object_array_text_keys (self : JsonLogster) (separator : string)
    (parent_keys : list string) (node : json) :
  ascii_only (key_separator self) = true ->
  ascii_keys node = true ->
  is_container node = true ->
  flatten_object self node separator (Some text_keys) parent_keys
  = Ok (last_wins (leaves_indexed (key_separator self) separator parent_keys node)).
Proof.
  intros Hsep Hascii Hc. by apply flatten_object_leaves_indexed.
Qed.

Lemma flatten_object_array_text_keys_witness :
  flatten_object (init ".") doc_nested "." (Some text_keys) []
  = Ok {["a.b" := PyInt 1; "a.c.0" := PyInt 2; "a.c.1" := PyInt 3]}.
Proof.
  rewrite (flatten_object_array_text_keys (init ".") "." [] doc_nested
             eq_refl eq_refl eq_refl).
  vm_compute. reflexivity.
Defined.
